(** * Todo application: entity module and controller

    A shallow embedding of [src/models/Todo.ts], of the Todo controller
    and of the [todos] / [subtodos] tables of the SQL schema, followed by
    the properties of the specification that concern them.

    The program is asynchronous TypeScript over a PostgreSQL store.  Its
    effects are modelled by a state-and-exception monad over a [World]
    holding the database, the clock, the connection faults and the error
    console.  JavaScript exceptions are the [Throw] results; [try]/[catch]
    is [try_catch]. *)

From Stdlib Require Import ZArith List String Bool Lia DecimalString.
From Stdlib Require Import RelationClasses.
Import ListNotations.

Local Open Scope string_scope.
Local Open Scope Z_scope.

(* ================================================================== *)
(** ** Data model *)
(* ================================================================== *)

(** [status: "incomplete" | "complete"], the SQL enum [todo_status]. *)
Inductive Status : Set := incomplete | complete.

(** A [Date] / [TIMESTAMP], as milliseconds since the epoch. *)
Definition Date := Z.

(** A JavaScript [number] used as a row id: an integer, or [NaN], the
    number a path segment that is not numeric stands for.  The width of
    the [INTEGER] columns is not modelled. *)
Inductive JsNumber : Set := Int (z : Z) | NaN.

(** [interface TodoProps], also used at type [Partial<TodoProps>]: a
    JavaScript object, every key of which may be missing.  For the
    optional keys [None] is an absent (or null) key; for [title] and
    [description], which [createTodo] always writes, [None] is the key
    holding [undefined]. *)
Record TodoProps : Set := mkProps {
  id : option Z;
  title : option string;
  description : option string;
  status : option Status;
  dueAt : option Date;
  createdAt : option Date;
  completedAt : option Date;
  editedAt : option Date;
  userId : option Z
}.

(** The empty object [{}]. *)
Definition noProps : TodoProps :=
  mkProps None None None None None None None None None.

(** A row of [CREATE TABLE todos]. *)
Module TodoRow.
Record t : Set := mk {
  id : Z;                        (* SERIAL PRIMARY KEY *)
  title : string;                (* VARCHAR(255) NOT NULL *)
  description : string;          (* TEXT NOT NULL *)
  status : Status;               (* NOT NULL DEFAULT 'incomplete' *)
  due_at : option Date;
  created_at : Date;             (* NOT NULL DEFAULT CURRENT_TIMESTAMP *)
  completed_at : option Date;
  edited_at : option Date
}.
End TodoRow.

(** A row of [CREATE TABLE subtodos]. *)
Module SubtodoRow.
Record t : Set := mk {
  id : Z;
  title : string;
  status : Status;
  created_at : Date;
  completed_at : option Date;
  edited_at : option Date;
  todo_id : option Z             (* REFERENCES todos(id) ON DELETE CASCADE *)
}.
End SubtodoRow.

(** The database: both tables in heap order and the sequence behind
    [todos.id]. *)
Record Store : Set := mkStore {
  todos : list TodoRow.t;
  todos_id_seq : Z;
  subtodos : list SubtodoRow.t
}.

(** The store right after the schema script ran. *)
Definition emptyStore : Store := mkStore [] 0 [].

(** What a store operation or a helper can throw. *)
Inductive Error : Set :=
| ConnectionError        (* reserving a connection or sending failed *)
| UndefinedValue         (* the client refuses an [undefined] parameter *)
| SyntaxError            (* [SET , edited_at = ...] *)
| UndefinedColumn        (* column [user_id] does not exist *)
| DuplicateAssignment    (* two assignments to [edited_at] *)
| InvalidInput           (* [NaN] where an integer is expected *)
| StringTooLong          (* more than 255 characters for [title] *)
| UniqueViolation        (* primary key *)
| ForeignKeyViolation    (* a subtodo still references the old id *)
| TypeError.             (* no row to convert *)

Inductive Result (A : Type) : Type :=
| Ok (a : A)
| Throw (e : Error).
Arguments Ok {A} a.
Arguments Throw {A} e.

(* ================================================================== *)
(** ** The world and its monad *)
(* ================================================================== *)

(** [clock] and [fault] are oracles: the [n]-th reading of the clock
    gives [clock n], the [n]-th use of the store fails when [fault n].
    [log] is what went to [console.error], most recent first. *)
Record World : Type := mkWorld {
  db : Store;
  clock : nat -> Date;
  reads : nat;
  fault : nat -> bool;
  stmts : nat;
  log : list (string * Error)
}.

Definition M (A : Type) : Type := World -> Result A * World.

Definition ret {A} (a : A) : M A := fun w => (Ok a, w).

Definition throw {A} (e : Error) : M A := fun w => (Throw e, w).

Definition bind {A B} (m : M A) (k : A -> M B) : M B :=
  fun w =>
    match m w with
    | (Ok a, w') => k a w'
    | (Throw e, w') => (Throw e, w')
    end.

(** [try { m } catch (error) { h error }] *)
Definition try_catch {A} (m : M A) (h : Error -> M A) : M A :=
  fun w =>
    match m w with
    | (Ok a, w') => (Ok a, w')
    | (Throw e, w') => h e w'
    end.

Declare Scope js_scope.
Delimit Scope js_scope with js.
Notation "x <- c ;; k" := (bind c (fun x => k))
  (at level 61, c at next level, right associativity) : js_scope.
Notation "c ;; k" := (bind c (fun _ => k))
  (at level 61, right associativity) : js_scope.
Local Open Scope js_scope.

(** [createUTCDate()] of [utils], which is not among the sources: the
    current time, here the next reading of the clock. *)
Definition createUTCDate : M Date :=
  fun w =>
    (Ok (clock w (reads w)),
     mkWorld (db w) (clock w) (S (reads w)) (fault w) (stmts w) (log w)).

(** [console.error(message, error)] *)
Definition console_error (message : string) (e : Error) : M unit :=
  fun w =>
    (Ok tt,
     mkWorld (db w) (clock w) (reads w) (fault w) (stmts w)
             ((message, e) :: log w)).

(** [await sql.reserve()]: one use of the store, which may be down. *)
Definition reserve : M unit :=
  fun w =>
    let w' := mkWorld (db w) (clock w) (reads w) (fault w) (S (stmts w))
                      (log w) in
    if fault w (stmts w) then (Throw ConnectionError, w') else (Ok tt, w').

(** Running one SQL statement on the reserved connection.  The statement
    sees the store's [CURRENT_TIMESTAMP] and returns its result together
    with the store it leaves. *)
Definition statement {A} (q : Date -> Store -> Result A * Store) : M A :=
  fun w =>
    let (r, d) := q (clock w (reads w)) (db w) in
    (r, mkWorld d (clock w) (reads w) (fault w) (stmts w) (log w)).

(* ================================================================== *)
(** ** The SQL statements of [Todo.ts] on the schema *)
(* ================================================================== *)

Module SQL.

Definition has_id (i : Z) (r : TodoRow.t) : bool := TodoRow.id r =? i.

Definition references (i : Z) (s : SubtodoRow.t) : bool :=
  match SubtodoRow.todo_id s with
  | Some j => j =? i
  | None => false
  end.

Definition too_long (s : option string) : bool :=
  match s with
  | Some x => (255 <? Z.of_nat (String.length x))
  | None => false
  end.

(** [INSERT INTO todos ${sql(props)} RETURNING *] *)
Definition insert_todos (p : TodoProps) (current_timestamp : Date)
    (d : Store) : Result TodoRow.t * Store :=
  match title p, description p with
  | Some ti, Some de =>
      match userId p with
      | Some _ => (Throw UndefinedColumn, d)
      | None =>
          let seq' := match id p with
                      | Some _ => todos_id_seq d
                      | None => todos_id_seq d + 1
                      end in
          let i := match id p with Some i => i | None => seq' end in
          let row :=
            TodoRow.mk i ti de
              (match status p with Some s => s | None => incomplete end)
              (dueAt p)
              (match createdAt p with
               | Some c => c
               | None => current_timestamp
               end)
              (completedAt p) (editedAt p) in
          (* [nextval] is consumed even when the row is rejected *)
          let d' := mkStore (todos d) seq' (subtodos d) in
          if too_long (title p) then (Throw StringTooLong, d')
          else if existsb (has_id i) (todos d)
               then (Throw UniqueViolation, d')
          else (Ok row, mkStore (todos d ++ [row]) seq' (subtodos d))
      end
  | _, _ => (Throw UndefinedValue, d)
  end.

(** [SELECT * FROM todos WHERE id = ${id}] *)
Definition select_by_id (i : JsNumber) (_ : Date) (d : Store)
    : Result (option TodoRow.t) * Store :=
  match i with
  | NaN => (Throw InvalidInput, d)
  | Int z => (Ok (find (has_id z) (todos d)), d)
  end.

(** [SELECT * FROM todos] *)
Definition select_all (_ : Date) (d : Store)
    : Result (list TodoRow.t) * Store :=
  (Ok (todos d), d).

(** The column list [${sql(updateProps)}] is empty. *)
Definition no_columns (p : TodoProps) : bool :=
  match id p, title p, description p, status p, dueAt p, createdAt p,
        completedAt p, editedAt p, userId p with
  | None, None, None, None, None, None, None, None, None => true
  | _, _, _, _, _, _, _, _, _ => false
  end.

Definition or_else {A} (o : option A) (a : A) : A :=
  match o with Some x => x | None => a end.

Definition or_keep {A} (o : option A) (a : option A) : option A :=
  match o with Some x => Some x | None => a end.

(** The [SET] clause on one row: the supplied columns, then
    [edited_at = now]. *)
Definition assign (p : TodoProps) (now : Date) (r : TodoRow.t) : TodoRow.t :=
  TodoRow.mk (or_else (id p) (TodoRow.id r))
         (or_else (title p) (TodoRow.title r))
         (or_else (description p) (TodoRow.description r))
         (or_else (status p) (TodoRow.status r))
         (or_keep (dueAt p) (TodoRow.due_at r))
         (or_else (createdAt p) (TodoRow.created_at r))
         (or_keep (completedAt p) (TodoRow.completed_at r))
         (Some now).

(** Changing the key of row [i] to [j]: [j] must be free and no
    subtodo may reference [i]. *)
Definition rekey_error (i : Z) (p : TodoProps) (d : Store)
    : option Error :=
  match id p with
  | None => None
  | Some j =>
      if j =? i then None
      else if existsb (has_id j) (todos d) then Some UniqueViolation
      else if existsb (references i) (subtodos d)
           then Some ForeignKeyViolation
      else None
  end.

(** [UPDATE todos SET ${sql(updateProps)}, edited_at = ${now}
     WHERE id = ${id} RETURNING *], and the first returned row. *)
Definition update_todos (p : TodoProps) (now : Date) (i : option Z)
    (_ : Date) (d : Store) : Result (option TodoRow.t) * Store :=
  match i with
  | None => (Throw UndefinedValue, d)
  | Some i =>
      if no_columns p then (Throw SyntaxError, d)
      else match userId p with
      | Some _ => (Throw UndefinedColumn, d)
      | None =>
      match editedAt p with
      | Some _ => (Throw DuplicateAssignment, d)
      | None =>
          if existsb (has_id i) (todos d) then
            if too_long (title p) then (Throw StringTooLong, d)
            else match rekey_error i p d with
            | Some e => (Throw e, d)
            | None =>
                let f r := if has_id i r then assign p now r else r in
                (Ok (option_map (assign p now) (find (has_id i) (todos d))),
                 mkStore (map f (todos d)) (todos_id_seq d) (subtodos d))
            end
          else (Ok None, d)
      end
      end
  end.

(** [DELETE FROM todos WHERE id = ${id}], with the cascade of
    [subtodos.todo_id]; returns [result.count]. *)
Definition delete_todos (i : option Z) (_ : Date) (d : Store)
    : Result Z * Store :=
  match i with
  | None => (Throw UndefinedValue, d)
  | Some i =>
      let gone := filter (has_id i) (todos d) in
      (Ok (Z.of_nat (List.length gone)),
          mkStore (filter (fun r => negb (has_id i r)) (todos d))
                  (todos_id_seq d)
                  (match gone with
                   | [] => subtodos d
                   | _ :: _ =>
                       filter (fun s => negb (references i s)) (subtodos d)
                   end))
  end.

(** Modelled from the spec: the fetch of a Subtodo.  The repository has
    the [subtodos] table but no entity module for it, so the fetch is the
    statement [SELECT * FROM subtodos WHERE id = ${id}]. *)
Definition select_subtodo (i : Z) (d : Store) : option SubtodoRow.t :=
  find (fun s => SubtodoRow.id s =? i) (subtodos d).

End SQL.

(* ================================================================== *)
(** ** The entity module [src/models/Todo.ts] *)
(* ================================================================== *)

(** Modelled from the spec: [convertToCase], [snakeToCamel] and
    [camelToSnake] of [utils], which is not among the sources.  The spec
    makes the translation between the camel-case keys and the snake-case
    columns a pure, total, reversible renaming, so a row and the object
    made from it carry the same values under corresponding names. *)
Definition fromRow (r : TodoRow.t) : TodoProps :=
  mkProps (Some (TodoRow.id r)) (Some (TodoRow.title r)) (Some (TodoRow.description r))
          (Some (TodoRow.status r)) (TodoRow.due_at r) (Some (TodoRow.created_at r))
          (TodoRow.completed_at r) (TodoRow.edited_at r) None.

(** [{ ...props, ...convertToCase(snakeToCamel, row) }]: the row carries
    every column, so only [userId] survives from [props]. *)
Definition spread (p : TodoProps) (r : TodoRow.t) : TodoProps :=
  mkProps (Some (TodoRow.id r)) (Some (TodoRow.title r)) (Some (TodoRow.description r))
          (Some (TodoRow.status r)) (TodoRow.due_at r) (Some (TodoRow.created_at r))
          (TodoRow.completed_at r) (TodoRow.edited_at r) (userId p).

Definition set_createdAt (c : Date) (p : TodoProps) : TodoProps :=
  mkProps (id p) (title p) (description p) (status p) (dueAt p) (Some c)
          (completedAt p) (editedAt p) (userId p).

Module Todo.

(** [class Todo]: the [sql] handle is the store of the [World]. *)
Record t : Set := mk { props : TodoProps }.

(** [static async create(sql, props)] *)
Definition create (p : TodoProps) : M t :=
  reserve ;;
  c <- match createdAt p with
       | Some c => ret c
       | None => createUTCDate
       end ;;
  row <- statement (SQL.insert_todos (set_createdAt c p)) ;;
  ret (mk (fromRow row)).

(** [static async read(sql, id)] *)
Definition read (i : JsNumber) : M (option t) :=
  reserve ;;
  row <- statement (SQL.select_by_id i) ;;
  match row with
  | None => ret None
  | Some r => ret (Some (mk (fromRow r)))
  end.

(** [static async readAll(sql, userId, filters?, sortBy?, orderBy?)] *)
Definition readAll (userId : option Z) (filters : option TodoProps)
    (sortBy orderBy : option string) : M (list t) :=
  reserve ;;
  rows <- statement SQL.select_all ;;
  ret (map (fun row => mk (fromRow row)) rows).

(** [async update(updateProps)]; the mutated object is returned.  When
    the statement returns no row there is nothing for [convertToCase] to
    convert, which is taken to throw. *)
Definition update (this : t) (updateProps : TodoProps) : M t :=
  reserve ;;
  now <- createUTCDate ;;
  row <- statement (SQL.update_todos updateProps now (id (props this))) ;;
  match row with
  | None => throw TypeError
  | Some r => ret (mk (spread (props this) r))
  end.

(** [async delete()] *)
Definition delete (this : t) : M bool :=
  reserve ;;
  count <- statement (SQL.delete_todos (id (props this))) ;;
  ret (count =? 1).

(** The argument of [update] in [markComplete]. *)
Definition completion (now : Date) : TodoProps :=
  mkProps None None None (Some complete) None None (Some now) None None.

(** [async markComplete()] *)
Definition markComplete (this : t) : M t :=
  now <- createUTCDate ;;
  update this (completion now).

End Todo.

(* ================================================================== *)
(** ** Requests and responses *)
(* ================================================================== *)

(** Modelled from the spec: [enum StatusCode] of [router/Response],
    which is not among the sources; the members are those the spec's
    interface table and error taxonomy name. *)
Inductive StatusCode : Set :=
| OK | Created | BadRequest | Unauthorized | Forbidden | NotFound
| InternalServerError.

Definition code (s : StatusCode) : Z :=
  match s with
  | OK => 200
  | Created => 201
  | BadRequest => 400
  | Unauthorized => 401
  | Forbidden => 403
  | NotFound => 404
  | InternalServerError => 500
  end.

(** [req.body]: the fields a Todo form or JSON document can carry. *)
Record Body : Set := mkBody {
  body_title : option string;
  body_description : option string;
  body_dueAt : option Date;
  body_userId : option Z
}.

(** Modelled from the spec: [class Request] of [router/Request], which
    is not among the sources.  A request carries its parsed body, the
    number [getId()] reads from the path, and the user of the session
    its cookie names, if any. *)
Record Request : Set := mkRequest {
  session : option Z;
  getId : JsNumber;
  body : Body
}.

(** The payloads the handlers send. *)
Inductive Payload : Set :=
| FormPayload (ttl : string)
| EditPayload (todo : option TodoProps) (ttl : string)
| ListPayload (ttl : string) (items : list (TodoProps * bool))
| ShowPayload (todo : option TodoProps) (ttl : option string)
              (isComplete : bool)
| TodoPayload (todo : option TodoProps).

(** Modelled from the spec: [class Response] of [router/Response], which
    is not among the sources.  What a handler answers is the object it
    passes to [res.send]. *)
Record Response : Set := mkResponse {
  statusCode : StatusCode;
  message : string;
  payload : Payload;
  template : option string;
  redirect : option string
}.

(** JavaScript truthiness of a string field: present and not empty. *)
Definition truthy (s : option string) : bool :=
  match s with
  | Some EmptyString | None => false
  | Some (String _ _) => true
  end.

(** How a template literal prints an id. *)
Definition show_Z (z : Z) : string := NilZero.string_of_int (Z.to_int z).

Definition show_id (i : option Z) : string :=
  match i with
  | Some z => show_Z z
  | None => "undefined"
  end.

Definition show_JsNumber (n : JsNumber) : string :=
  match n with
  | Int z => show_Z z
  | NaN => "NaN"
  end.

(** [todo?.props] and [todo?.props.x] *)
Definition props_of (todo : option Todo.t) : option TodoProps :=
  option_map Todo.props todo.

Definition is_complete (p : TodoProps) : bool :=
  match status p with
  | Some complete => true
  | _ => false
  end.

(* ================================================================== *)
(** ** The Todo controller *)
(* ================================================================== *)

Module TodoController.

Definition Handler : Type := Request -> M Response.

Definition getNewTodoForm : Handler := fun req =>
  ret (mkResponse OK "New todo form" (FormPayload "New Todo")
                  (Some "NewFormView") None).

Definition getEditTodoForm : Handler := fun req =>
  let id := getId req in
  todo <- try_catch (Todo.read id)
            (fun error =>
               console_error "Error while getting todo list: " error ;;
               ret None) ;;
  ret (mkResponse OK "Edit todo form"
                  (EditPayload (props_of todo) "Edit Todo")
                  (Some "EditFormView") None).

Definition getTodoList : Handler := fun req =>
  todos <- try_catch (Todo.readAll None None None None)
             (fun error =>
                console_error "Error while getting todo list: " error ;;
                ret []) ;;
  let todoList :=
    map (fun todo => (Todo.props todo, is_complete (Todo.props todo)))
        todos in
  ret (mkResponse OK "Todo list retrieved"
                  (ListPayload "Todo List" todoList)
                  (Some "ListView") None).

Definition getTodo : Handler := fun req =>
  let id := getId req in
  todo <- try_catch (Todo.read id)
            (fun error =>
               console_error "Error while getting todo list: " error ;;
               ret None) ;;
  ret (mkResponse OK "Todo retrieved"
                  (ShowPayload (props_of todo)
                     (match todo with
                      | Some t => title (Todo.props t)
                      | None => None
                      end)
                     (match todo with
                      | Some t => is_complete (Todo.props t)
                      | None => false
                      end))
                  (Some "ShowView") None).

Definition createTodo : Handler := fun req =>
  now <- createUTCDate ;;
  let todoProps :=
    mkProps None (body_title (body req)) (body_description (body req))
            (Some incomplete) None (Some now) None None None in
  todo <- try_catch (t <- Todo.create todoProps ;; ret (Some t))
            (fun error =>
               console_error "Error while creating todo:" error ;;
               ret None) ;;
  ret (mkResponse Created "Todo created successfully!"
                  (TodoPayload (props_of todo)) None
                  (Some ("/todos/" ++
                         show_id (match todo with
                                  | Some t => id (Todo.props t)
                                  | None => None
                                  end)))).

Definition updateTodo : Handler := fun req =>
  let id := getId req in
  let todoProps :=
    mkProps None
      (if truthy (body_title (body req))
       then body_title (body req) else None)
      (if truthy (body_description (body req))
       then body_description (body req) else None)
      None None None None None None in
  todo <- try_catch (Todo.read id)
            (fun error =>
               console_error "Error while updating todo:" error ;;
               ret None) ;;
  todo <- try_catch
            (match todo with
             | Some t => t' <- Todo.update t todoProps ;; ret (Some t')
             | None => ret None
             end)
            (fun error =>
               console_error "Error while updating todo:" error ;;
               ret todo) ;;
  ret (mkResponse OK "Todo updated successfully!"
                  (TodoPayload (props_of todo)) None
                  (Some ("/todos/" ++ show_JsNumber id))).

Definition deleteTodo : Handler := fun req =>
  let id := getId req in
  todo <- try_catch (Todo.read id)
            (fun error =>
               console_error "Error while deleting todo:" error ;;
               ret None) ;;
  try_catch
    (match todo with
     | Some t => Todo.delete t ;; ret tt
     | None => ret tt
     end)
    (fun error => console_error "Error while deleting todo:" error) ;;
  ret (mkResponse OK "Todo deleted successfully!"
                  (TodoPayload (props_of todo)) None (Some "/todos")).

Definition completeTodo : Handler := fun req =>
  let id := getId req in
  todo <- try_catch (Todo.read id)
            (fun error =>
               console_error "Error while marking todo as complete:" error ;;
               ret None) ;;
  todo <- try_catch
            (match todo with
             | Some t => t' <- Todo.markComplete t ;; ret (Some t')
             | None => ret None
             end)
            (fun error =>
               console_error "Error while marking todo as complete:" error ;;
               ret todo) ;;
  ret (mkResponse OK "Todo marked as complete!"
                  (TodoPayload (props_of todo)) None
                  (Some ("/todos/" ++ show_JsNumber id))).

(** The HTTP methods the router registers. *)
Inductive Method : Set := GET | POST | PUT | DELETE.

(** [registerRoutes(router)], in registration order. *)
Definition registerRoutes : list (Method * string * Handler) :=
  [ (GET, "/todos", getTodoList);
    (GET, "/todos/new", getNewTodoForm);
    (POST, "/todos", createTodo);
    (GET, "/todos/:id/edit", getEditTodoForm);
    (GET, "/todos/:id", getTodo);
    (PUT, "/todos/:id", updateTodo);
    (DELETE, "/todos/:id", deleteTodo);
    (PUT, "/todos/:id/complete", completeTodo) ].

End TodoController.

(* ================================================================== *)
(** ** Running the program *)
(* ================================================================== *)

(** One operation of the controller: a registered handler and the
    request it is given. *)
Definition Op : Type := TodoController.Handler * Request.

Definition registered (h : TodoController.Handler) : Prop :=
  exists m p, In (m, p, h) TodoController.registerRoutes.

Definition step (o : Op) (w : World) : World := snd (fst o (snd o) w).

Fixpoint run (ops : list Op) (w : World) : World :=
  match ops with
  | [] => w
  | o :: rest => run rest (step o w)
  end.

(** The status stored for Todo [i], if it is stored. *)
Definition stored (d : Store) (i : Z) : option TodoRow.t :=
  find (SQL.has_id i) (todos d).

Definition stored_status (d : Store) (i : Z) : option Status :=
  option_map TodoRow.status (stored d i).

(* ================================================================== *)
(** ** Vocabulary of the properties *)
(* ================================================================== *)

(** *** The status a handler sends *)

(** A handler that answers with status [s] whatever happens. *)
Definition always_sends (h : TodoController.Handler) (s : StatusCode)
    : Prop :=
  forall req w, exists r w', h req w = (Ok r, w') /\ statusCode r = s.

(** What a route answers to a request, as a property of the route. *)
Definition route_never_sends (s : StatusCode)
    (route : TodoController.Method * string * TodoController.Handler)
    : Prop :=
  forall req w, exists r w',
    snd route req w = (Ok r, w') /\ statusCode r <> s.

(** *** [Todo.update] *)

(** The statement of [update] is well formed for [P]: it names at least
    one column, and neither [edited_at] (assigned by [update] itself)
    nor [user_id] (which [todos] does not have). *)
Definition accepted (P : TodoProps) : bool :=
  negb (SQL.no_columns P)
  && match userId P with Some _ => false | None => true end
  && match editedAt P with Some _ => false | None => true end.

(** The schema's constraints allow [P] on row [i]. *)
Definition allowed (P : TodoProps) (i : Z) (d : Store) : bool :=
  negb (SQL.too_long (title P))
  && match SQL.rekey_error i P d with Some _ => false | None => true end.

(** The table after [update]: the rows with id [i] rewritten. *)
Definition rewritten (P : TodoProps) (now : Date) (i : Z) (d : Store)
    : Store :=
  mkStore (map (fun r => if SQL.has_id i r then SQL.assign P now r else r)
               (todos d))
          (todos_id_seq d) (subtodos d).

(** A column after an update that may have supplied it. *)
Definition supplied_or_kept {A} (supplied : option A) (before after : A)
    : Prop :=
  match supplied with
  | Some x => after = x
  | None => after = before
  end.

Definition supplied_or_kept_null {A} (supplied : option A)
    (before after : option A) : Prop :=
  match supplied with
  | Some x => after = Some x
  | None => after = before
  end.

(** Row [r'] is row [r] with exactly the fields of [P] changed and
    [edited_at] stamped with [now]. *)
Definition updated_row (P : TodoProps) (now : Date) (r r' : TodoRow.t) : Prop :=
  supplied_or_kept (id P) (TodoRow.id r) (TodoRow.id r')
  /\ supplied_or_kept (title P) (TodoRow.title r) (TodoRow.title r')
  /\ supplied_or_kept (description P) (TodoRow.description r)
                      (TodoRow.description r')
  /\ supplied_or_kept (status P) (TodoRow.status r) (TodoRow.status r')
  /\ supplied_or_kept_null (dueAt P) (TodoRow.due_at r) (TodoRow.due_at r')
  /\ supplied_or_kept (createdAt P) (TodoRow.created_at r) (TodoRow.created_at r')
  /\ supplied_or_kept_null (completedAt P) (TodoRow.completed_at r)
                           (TodoRow.completed_at r')
  /\ TodoRow.edited_at r' = Some now.

(** The effect the specification gives [t.update(P)], for a Todo [t]
    stored as row [r] under id [i]: the call returns; the row of [t] is
    [r] with the supplied fields changed and [edited_at] stamped with
    the current time; every other row, the subtodos and the sequence are
    as before; and [t.props] shows the new row. *)
Definition update_effect (t : Todo.t) (P : TodoProps) (w : World) (i : Z)
    (r : TodoRow.t) : Prop :=
  exists t' w' r',
    Todo.update t P w = (Ok t', w')
    /\ updated_row P (clock w (reads w)) r r'
    /\ Forall2 (fun x x' =>
                  if SQL.has_id i x
                  then updated_row P (clock w (reads w)) x x'
                  else x' = x)
               (todos (db w)) (todos (db w'))
    /\ subtodos (db w') = subtodos (db w)
    /\ todos_id_seq (db w') = todos_id_seq (db w)
    /\ Todo.props t' = spread (Todo.props t) r'.

(** [{ title: X }] *)
Definition titleOnly (X : string) : TodoProps :=
  mkProps None (Some X) None None None None None None None.

(** The world after one reading of the clock. *)
Definition ticked (w : World) : World :=
  mkWorld (db w) (clock w) (S (reads w)) (fault w) (stmts w) (log w).

(** *** The store along a run of the controller *)

(** The sequence is ahead of every id in the table. *)
Definition keyed (d : Store) : Prop :=
  forall r, In r (todos d) -> TodoRow.id r <= todos_id_seq d.

(** How a store may change under the controller: the sequence does not
    go back, ids stay behind it, a complete Todo is not made incomplete,
    and an id that is behind the sequence and unused stays unused. *)
Definition evolves (d d' : Store) : Prop :=
  keyed d ->
  keyed d'
  /\ todos_id_seq d <= todos_id_seq d'
  /\ (forall i, stored_status d i = Some complete ->
                stored_status d' i <> Some incomplete)
  /\ (forall i, i <= todos_id_seq d -> stored d i = None ->
                stored d' i = None).

(** The status of each Todo is as before. *)
Definition same_status (d d' : Store) : Prop :=
  forall i, stored_status d' i = stored_status d i.

(** The status of each Todo is as before, or complete. *)
Definition completes (d d' : Store) : Prop :=
  forall i, stored_status d' i = stored_status d i
            \/ stored_status d' i = Some complete.

(** A computation that keeps the store within the relation [R]. *)
Definition respects (R : Store -> Store -> Prop) {A} (m : M A) : Prop :=
  forall w, R (db w) (db (snd (m w))).

(* ================================================================== *)
(** ** Sample data *)
(* ================================================================== *)

(** A fresh deployment: empty tables, reachable store, a ticking clock. *)
Definition world0 : World :=
  mkWorld emptyStore (fun n => 1700000000000 + Z.of_nat n) 0
          (fun _ => false) 0 [].

(** A world in which the store cannot be reached. *)
Definition store_down (d : Store) (c : nat -> Date) (n k : nat)
    (l : list (string * Error)) : World :=
  mkWorld d c n (fun _ => true) k l.

Definition emptyBody : Body := mkBody None None None None.

(** A request that carries a session, an id, [dueAt] and [userId]. *)
Definition sample_request : Request :=
  mkRequest (Some 7) (Int 3)
    (mkBody (Some "Buy milk") (Some "Two litres") (Some 1800000000000)
            (Some 42)).

(** Sample data: one stored Todo with one Subtodo. *)
Definition row1 : TodoRow.t :=
  TodoRow.mk 1 "Buy milk" "Two litres" incomplete None 1700000000000 None None.

Definition subrow1 : SubtodoRow.t :=
  SubtodoRow.mk 1 "Skimmed" incomplete 1700000000001 None None (Some 1).

Definition store1 : Store := mkStore [row1] 1 [subrow1].

Definition world1 : World :=
  mkWorld store1 (clock world0) 1 (fun _ => false) 1 [].

Definition todo1 : Todo.t := Todo.mk (fromRow row1).

(** A title of 256 characters. *)
Definition long_title : string := String.concat "" (List.repeat "x" 256).

(** Sample operations: create a Todo, complete it, then edit its title. *)
Definition sample_create : Op :=
  (TodoController.createTodo,
   mkRequest None NaN (mkBody (Some "Buy milk") (Some "Two litres") None None)).

Definition sample_complete : Op :=
  (TodoController.completeTodo, mkRequest None (Int 1) emptyBody).

Definition sample_update : Op :=
  (TodoController.updateTodo,
   mkRequest None (Int 1) (mkBody (Some "Buy oat milk") None None None)).

(* ================================================================== *)
(** ** Vocabulary of the further properties *)
(* ================================================================== *)

(** [todos.id] is a primary key: no two rows share an id. *)
Definition pk (d : Store) : Prop := NoDup (map TodoRow.id (todos d)).

(** [subtodos.todo_id] is a foreign key: it names a row of [todos]. *)
Definition fk (d : Store) : Prop :=
  forall s j, In s (subtodos d) -> SubtodoRow.todo_id s = Some j ->
              existsb (SQL.has_id j) (todos d) = true.

(** The relation of a store to a later one that keeps the invariant [I]. *)
Definition keeps (I : Store -> Prop) (d d' : Store) : Prop := I d -> I d'.

(** What the [Todo.read] of a handler finds for the id of the request:
    nothing when the store is down, when the id is [NaN], and when no row
    has it. *)
Definition read_finds (req : Request) (w : World) : option TodoRow.t :=
  if fault w (stmts w) then None
  else match getId req with
       | Int i => stored (db w) i
       | NaN => None
       end.

(** The world after one use of the store that left the tables alone. *)
Definition used (w : World) : World :=
  mkWorld (db w) (clock w) (reads w) (fault w) (S (stmts w)) (log w).

(** Row [r] after [updateTodo] with body [b] at time [now]: a title or a
    description of the body replaces the stored one when it is truthy. *)
Definition edited_row (b : Body) (now : Date) (r : TodoRow.t) : TodoRow.t :=
  TodoRow.mk (TodoRow.id r)
         (match body_title b with
          | Some (String c x) => String c x
          | _ => TodoRow.title r
          end)
         (match body_description b with
          | Some (String c x) => String c x
          | _ => TodoRow.description r
          end)
         (TodoRow.status r) (TodoRow.due_at r) (TodoRow.created_at r)
         (TodoRow.completed_at r) (Some now).

(** Row [r] after [markComplete] that read the clock at [now] and then at
    [edited]. *)
Definition completed_row (now edited : Date) (r : TodoRow.t) : TodoRow.t :=
  TodoRow.mk (TodoRow.id r) (TodoRow.title r) (TodoRow.description r) complete
         (TodoRow.due_at r) (TodoRow.created_at r) (Some now) (Some edited).

(** The object [updateTodo] builds from the body and gives [update]. *)
Definition body_update (b : Body) : TodoProps :=
  mkProps None
    (if truthy (body_title b) then body_title b else None)
    (if truthy (body_description b) then body_description b else None)
    None None None None None None.

(** The handlers that read a Todo and then write it. *)
Definition writers : list TodoController.Handler :=
  [ TodoController.updateTodo; TodoController.deleteTodo;
    TodoController.completeTodo ].

(** A stored Todo that was completed earlier. *)
Definition row2 : TodoRow.t :=
  TodoRow.mk 2 "Pay rent" "Before the 5th" complete None 1700000000000
         (Some 1700000000005) (Some 1700000000006).

Definition store2 : Store := mkStore [row1; row2] 2 [subrow1].

Definition world2 : World :=
  mkWorld store2 (clock world0) 9 (fun _ => false) 4 [].

(** The properties [createTodo] of the test suites gives [Todo.create],
    without [dueAt] and [userId]. *)
Definition props1 : TodoProps :=
  mkProps None (Some "Buy milk") (Some "Two litres") (Some incomplete) None
          (Some 1700000000000) None None None.

(** A store from which Todo 1 was deleted. *)
Definition world3 : World :=
  mkWorld (mkStore [] 1 []) (clock world0) 4 (fun _ => false) 3 [].

(* ================================================================== *)
(** * Proofs *)
(* ================================================================== *)

(* ================================================================== *)
(** ** Tactics for the monadic code *)
(* ================================================================== *)

Ltac unfold_js :=
  unfold bind, try_catch, ret, throw, reserve, statement, createUTCDate,
         console_error in *.

Ltac unfold_todo :=
  unfold Todo.create, Todo.read, Todo.readAll, Todo.update, Todo.delete,
         Todo.markComplete in *.

Ltac unfold_handlers :=
  unfold TodoController.getNewTodoForm, TodoController.getEditTodoForm,
         TodoController.getTodoList, TodoController.getTodo,
         TodoController.createTodo, TodoController.updateTodo,
         TodoController.deleteTodo, TodoController.completeTodo in *.

(** Case analysis on whatever the goal still branches on, innermost
    scrutinee first. *)
Ltac reduce_world :=
  cbn [db clock reads fault stmts log fst snd] in *.

Ltac branch :=
  repeat (reduce_world;
          match goal with
          | |- context [match ?x with _ => _ end] =>
              lazymatch x with
              | context [match _ with _ => _ end] => fail
              | _ => destruct x eqn:?
              end
          end);
  reduce_world.

Ltac sends := intros req w; unfold_handlers; unfold_todo; unfold_js;
              branch; eexists; eexists; split; reflexivity.

Lemma getNewTodoForm_sends : always_sends TodoController.getNewTodoForm OK.
Proof. sends. Qed.

Lemma getEditTodoForm_sends : always_sends TodoController.getEditTodoForm OK.
Proof. sends. Qed.

Lemma getTodoList_sends : always_sends TodoController.getTodoList OK.
Proof. sends. Qed.

Lemma getTodo_sends : always_sends TodoController.getTodo OK.
Proof. sends. Qed.

Lemma createTodo_sends : always_sends TodoController.createTodo Created.
Proof. sends. Qed.

Lemma updateTodo_sends : always_sends TodoController.updateTodo OK.
Proof. sends. Qed.

Lemma deleteTodo_sends : always_sends TodoController.deleteTodo OK.
Proof. sends. Qed.

Lemma completeTodo_sends : always_sends TodoController.completeTodo OK.
Proof. sends. Qed.

Lemma always_sends_never (h : TodoController.Handler) (s s' : StatusCode)
    (m : TodoController.Method) (p : string) :
  always_sends h s -> s <> s' -> route_never_sends s' (m, p, h).
Proof.
  intros Hs Hne req w. destruct (Hs req w) as (r & w' & Hrun & Hst).
  exists r, w'. split; [exact Hrun | congruence].
Qed.

Lemma routes_never_send (s : StatusCode) :
  s <> OK -> s <> Created ->
  Forall (route_never_sends s) TodoController.registerRoutes.
Proof.
  intros H1 H2. unfold TodoController.registerRoutes.
  repeat (apply Forall_cons;
          [ first [ eapply always_sends_never;
                    [ first [ apply getTodoList_sends
                            | apply getNewTodoForm_sends
                            | apply getEditTodoForm_sends
                            | apply getTodo_sends
                            | apply updateTodo_sends
                            | apply deleteTodo_sends
                            | apply completeTodo_sends
                            | apply createTodo_sends ]
                    | congruence ] ]
          | ]).
  apply Forall_nil.
Qed.

(* ================================================================== *)
(** ** Properties of the controller *)
(* ================================================================== *)

(** C1. The specification asks every Todo route to answer a request that
    carries no session with 401 and to leave the entity module alone.
    The handlers never look at the session: no registered route ever
    sends 401, and [GET /todos] without a session uses the store once and
    answers 200 with the list. *)
Theorem C1_no_session_is_served :
  Forall (route_never_sends Unauthorized) TodoController.registerRoutes
  /\ (forall i b w, exists r w',
        TodoController.getTodoList (mkRequest None i b) w = (Ok r, w')
        /\ code (statusCode r) = 200
        /\ stmts w' = S (stmts w))
  /\ fst (TodoController.getTodoList (mkRequest None NaN emptyBody) world0)
     = Ok (mkResponse OK "Todo list retrieved" (ListPayload "Todo List" [])
                      (Some "ListView") None).
Proof.
  split; [ apply routes_never_send; discriminate | split ].
  - intros i b w. unfold_handlers; unfold_todo; unfold_js.
    branch; eexists; eexists; repeat split; reflexivity.
  - reflexivity.
Qed.

(** C2. The specification asks [POST /todos] to answer 400 when the body
    lacks [title] or [description].  [createTodo] sends 201 with the
    success message in both cases; the store rejects the row, so nothing
    is created and the payload carries no todo. *)
Theorem C2_missing_field_gets_201 :
  (forall s i de du u w, exists r w',
      TodoController.createTodo (mkRequest s i (mkBody None de du u)) w
      = (Ok r, w')
      /\ code (statusCode r) = 201
      /\ message r = "Todo created successfully!"
      /\ payload r = TodoPayload None
      /\ db w' = db w)
  /\ (forall s i ti du u w, exists r w',
      TodoController.createTodo (mkRequest s i (mkBody ti None du u)) w
      = (Ok r, w')
      /\ code (statusCode r) = 201
      /\ message r = "Todo created successfully!"
      /\ payload r = TodoPayload None
      /\ db w' = db w).
Proof.
  split; intros; unfold_handlers; unfold_todo; unfold_js;
    unfold SQL.insert_todos, set_createdAt; cbn [body body_title
      body_description title description createdAt];
    branch; try discriminate;
    eexists; eexists; repeat split; try reflexivity; congruence.
Qed.

(** C3. The specification asks [GET /todos/:id] to answer 400 to an id
    that is not a number and 404 to an id no row has.  [getTodo] sends
    200 whatever the request and the store: with [NaN] the statement
    fails and the error is only logged, with an unknown id the payload is
    simply empty. *)
Theorem C3_getTodo_always_200 :
  (forall req w, exists r w',
      TodoController.getTodo req w = (Ok r, w')
      /\ code (statusCode r) = 200)
  /\ TodoController.getTodo (mkRequest (Some 1) NaN emptyBody) world0
     = (Ok (mkResponse OK "Todo retrieved" (ShowPayload None None false)
                       (Some "ShowView") None),
        mkWorld emptyStore (clock world0) 0%nat (fault world0) 1%nat
                [("Error while getting todo list: ", InvalidInput)])
  /\ TodoController.getTodo (mkRequest (Some 1) (Int 1) emptyBody) world0
     = (Ok (mkResponse OK "Todo retrieved" (ShowPayload None None false)
                       (Some "ShowView") None),
        mkWorld emptyStore (clock world0) 0%nat (fault world0) 1%nat []).
Proof.
  split; [ | split; reflexivity ].
  intros req w. destruct (getTodo_sends req w) as (r & w' & Hrun & Hst).
  exists r, w'. split; [ exact Hrun | rewrite Hst; reflexivity ].
Qed.

(** C4. The specification asks a handler whose entity-module call throws
    to answer 500.  The handlers do catch and log the error, and the
    response carries nothing of it; but the response is the one of the
    successful path: 200 with an empty list for [getTodoList], 201 with
    the success message and a redirect to [/todos/undefined] for
    [createTodo], and no registered route ever sends 500. *)
Theorem C4_store_error_gets_success_status :
  (forall d c n k l req, exists w',
      TodoController.getTodoList req (store_down d c n k l)
      = (Ok (mkResponse OK "Todo list retrieved"
                        (ListPayload "Todo List" []) (Some "ListView")
                        None), w')
      /\ log w' = ("Error while getting todo list: ", ConnectionError) :: l
      /\ db w' = d)
  /\ (forall d c n k l req, exists w',
      TodoController.createTodo req (store_down d c n k l)
      = (Ok (mkResponse Created "Todo created successfully!"
                        (TodoPayload None) None (Some "/todos/undefined")),
         w')
      /\ log w' = ("Error while creating todo:", ConnectionError) :: l
      /\ db w' = d)
  /\ Forall (route_never_sends InternalServerError)
            TodoController.registerRoutes.
Proof.
  split; [ | split ].
  - intros. eexists. split; [ reflexivity | split; reflexivity ].
  - intros. unfold store_down, TodoController.createTodo, Todo.create.
    unfold_js. cbn. eexists. split; [ reflexivity | split; reflexivity ].
  - apply routes_never_send; discriminate.
Qed.

(* ================================================================== *)
(** ** Facts about the tables *)
(* ================================================================== *)

Lemma stored_has_id (d : Store) (i : Z) (r : TodoRow.t) :
  stored d i = Some r -> TodoRow.id r = i.
Proof.
  unfold stored. intros H. apply find_some in H. destruct H as [_ H].
  unfold SQL.has_id in H. lia.
Qed.

Lemma stored_existsb (d : Store) (i : Z) (r : TodoRow.t) :
  stored d i = Some r -> existsb (SQL.has_id i) (todos d) = true.
Proof.
  unfold stored. intros H. apply find_some in H. destruct H as [Hin Hid].
  apply existsb_exists. exists r. split; assumption.
Qed.

Lemma existsb_stored (d : Store) (i : Z) :
  existsb (SQL.has_id i) (todos d) = true -> exists r, stored d i = Some r.
Proof.
  unfold stored. intros H. apply existsb_exists in H.
  destruct H as (x & Hin & Hid).
  destruct (find (SQL.has_id i) (todos d)) as [r|] eqn:E.
  - exists r. reflexivity.
  - rewrite (find_none _ _ E x Hin) in Hid. discriminate.
Qed.

(** Looking up [i] after a key-preserving rewrite of the rows with id [i]. *)
Lemma find_map_same_key (i : Z) (g : TodoRow.t -> TodoRow.t) (l : list TodoRow.t) :
  (forall r, TodoRow.id (g r) = TodoRow.id r) ->
  find (SQL.has_id i) (map (fun r => if SQL.has_id i r then g r else r) l)
  = option_map g (find (SQL.has_id i) l).
Proof.
  intros Hg. induction l as [|x l IH]; [ reflexivity | ].
  cbn [map find]. destruct (SQL.has_id i x) eqn:E.
  - unfold SQL.has_id in *. rewrite Hg, E. reflexivity.
  - rewrite E. exact IH.
Qed.

(** Looking up another key after a key-preserving rewrite of row [i]. *)
Lemma find_map_other_key (i j : Z) (g : TodoRow.t -> TodoRow.t) (l : list TodoRow.t) :
  (forall r, TodoRow.id (g r) = TodoRow.id r) -> i <> j ->
  find (SQL.has_id j) (map (fun r => if SQL.has_id i r then g r else r) l)
  = find (SQL.has_id j) l.
Proof.
  intros Hg Hne. induction l as [|x l IH]; [ reflexivity | ].
  cbn [map find]. destruct (SQL.has_id i x) eqn:E.
  - unfold SQL.has_id in *. rewrite Hg.
    assert ((TodoRow.id x =? j) = false) as -> by lia. exact IH.
  - destruct (SQL.has_id j x); [ reflexivity | exact IH ].
Qed.

(* ================================================================== *)
(** ** [Todo.update] *)
(* ================================================================== *)

(** What one successful [update] computes, in full. *)
Lemma update_runs (t : Todo.t) (P : TodoProps) (w : World) (i : Z)
    (r : TodoRow.t) :
  id (Todo.props t) = Some i ->
  stored (db w) i = Some r ->
  fault w (stmts w) = false ->
  accepted P = true ->
  allowed P i (db w) = true ->
  Todo.update t P w
  = (Ok (Todo.mk (spread (Todo.props t)
                         (SQL.assign P (clock w (reads w)) r))),
     mkWorld (rewritten P (clock w (reads w)) i (db w)) (clock w)
             (S (reads w)) (fault w) (S (stmts w)) (log w)).
Proof.
  intros Hid Hst Hup Hacc Hall.
  unfold accepted in Hacc. unfold allowed in Hall.
  apply andb_prop in Hacc. destruct Hacc as [Hacc He].
  apply andb_prop in Hacc. destruct Hacc as [Hn Hu].
  apply andb_prop in Hall. destruct Hall as [Hl Hk].
  apply negb_true_iff in Hn, Hl.
  unfold Todo.update. unfold_js. reduce_world.
  rewrite Hup, Hid. unfold SQL.update_todos. reduce_world.
  rewrite Hn.
  destruct (userId P); [ discriminate | ].
  destruct (editedAt P); [ discriminate | ].
  rewrite (stored_existsb _ _ _ Hst), Hl.
  destruct (SQL.rekey_error i P (db w)); [ discriminate | ].
  unfold stored in Hst. rewrite Hst. reflexivity.
Qed.

Lemma assign_updated_row (P : TodoProps) (now : Date) (r : TodoRow.t) :
  updated_row P now r (SQL.assign P now r).
Proof.
  unfold updated_row, SQL.assign, supplied_or_kept, supplied_or_kept_null.
  cbn. destruct P as [a b c d e f g h k]; cbn.
  destruct a, b, c, d, e, f, g; repeat split.
Qed.

Lemma rewritten_rows (P : TodoProps) (now : Date) (i : Z)
    (l : list TodoRow.t) :
  Forall2 (fun x x' =>
             if SQL.has_id i x then updated_row P now x x' else x' = x)
          l
          (map (fun r => if SQL.has_id i r then SQL.assign P now r else r) l).
Proof.
  induction l as [|x l IH]; cbn [map]; constructor; [ | exact IH ].
  destruct (SQL.has_id i x); [ apply assign_updated_row | reflexivity ].
Qed.

(** C5, as amended.  For a stored Todo, a reachable store and an update
    [P] that names at least one column, names neither [editedAt] nor
    [userId], and is allowed by the constraints of the schema,
    [t.update(P)] changes exactly the fields supplied in [P] and stamps
    [edited_at] with the current time, every other field and row staying
    as it was; and applying [{title: X}] twice leaves the title the first
    application gave. *)
Theorem C5_update_changes_supplied_fields :
  (forall t P w i r,
      id (Todo.props t) = Some i ->
      stored (db w) i = Some r ->
      fault w (stmts w) = false ->
      accepted P = true ->
      allowed P i (db w) = true ->
      update_effect t P w i r)
  /\ (forall t X w i r,
      id (Todo.props t) = Some i ->
      stored (db w) i = Some r ->
      fault w (stmts w) = false ->
      fault w (S (stmts w)) = false ->
      SQL.too_long (Some X) = false ->
      exists t1 w1 t2 w2,
        Todo.update t (titleOnly X) w = (Ok t1, w1)
        /\ Todo.update t1 (titleOnly X) w1 = (Ok t2, w2)
        /\ title (Todo.props t1) = Some X
        /\ title (Todo.props t2) = Some X
        /\ option_map TodoRow.title (stored (db w1) i) = Some X
        /\ option_map TodoRow.title (stored (db w2) i) = Some X).
Proof.
  split.
  - intros t P w i r Hid Hst Hup Hacc Hall.
    unfold update_effect.
    rewrite (update_runs t P w i r Hid Hst Hup Hacc Hall).
    eexists. eexists. exists (SQL.assign P (clock w (reads w)) r).
    split; [ reflexivity | ].
    split; [ apply assign_updated_row | ].
    split; [ apply rewritten_rows | ].
    repeat split.
  - intros t X w i r Hid Hst Hup Hup' Hlen.
    assert (Hall : forall d, allowed (titleOnly X) i d = true).
    { intros d. unfold allowed. cbn [title titleOnly]. rewrite Hlen.
      reflexivity. }
    pose proof (stored_has_id _ _ _ Hst) as Hri.
    pose proof (update_runs t (titleOnly X) w i r Hid Hst Hup eq_refl
                            (Hall _)) as Hrun1.
    set (now := clock w (reads w)) in *.
    set (t1 := Todo.mk (spread (Todo.props t)
                               (SQL.assign (titleOnly X) now r))) in *.
    set (w1 := mkWorld (rewritten (titleOnly X) now i (db w)) (clock w)
                       (S (reads w)) (fault w) (S (stmts w)) (log w)) in *.
    assert (Hst1 : stored (db w1) i
                   = Some (SQL.assign (titleOnly X) now r)).
    { unfold stored, w1, rewritten. cbn [db todos].
      rewrite find_map_same_key by reflexivity.
      unfold stored in Hst. rewrite Hst. reflexivity. }
    assert (Hid1 : id (Todo.props t1) = Some i).
    { cbn. rewrite Hri. reflexivity. }
    pose proof (update_runs t1 (titleOnly X) w1 i _ Hid1 Hst1 Hup' eq_refl
                            (Hall _)) as Hrun2.
    exists t1, w1. eexists. eexists.
    split; [ exact Hrun1 | ]. split; [ exact Hrun2 | ].
    split; [ reflexivity | ]. split; [ reflexivity | ].
    split.
    + rewrite Hst1. reflexivity.
    + unfold stored, rewritten. cbn [db todos].
      rewrite find_map_same_key by reflexivity.
      fold (stored (db w1) i). rewrite Hst1. reflexivity.
Qed.

Lemma C5_update_witness :
  update_effect todo1 (titleOnly "Buy oat milk") world1 1 row1
  /\ exists t1 w1 t2 w2,
       Todo.update todo1 (titleOnly "Buy oat milk") world1 = (Ok t1, w1)
       /\ Todo.update t1 (titleOnly "Buy oat milk") w1 = (Ok t2, w2)
       /\ title (Todo.props t1) = Some "Buy oat milk"
       /\ title (Todo.props t2) = Some "Buy oat milk"
       /\ option_map TodoRow.title (stored (db w1) 1) = Some "Buy oat milk"
       /\ option_map TodoRow.title (stored (db w2) 1) = Some "Buy oat milk".
Proof.
  split.
  - apply (proj1 C5_update_changes_supplied_fields
                 todo1 (titleOnly "Buy oat milk") world1 1 row1);
      reflexivity.
  - apply (proj2 C5_update_changes_supplied_fields
                 todo1 "Buy oat milk" world1 1 row1);
      reflexivity.
Defined.

(** C5, as stated, fails: for the stored [todo1] and a reachable store,
    [update] throws and stamps nothing when [P] names [userId] (the
    table has no such column), when it names [editedAt] (assigned twice),
    when it is empty (the [SET] list then starts with a comma), when its
    title has more than 255 characters, and when it changes the id of a
    Todo that has a Subtodo. *)
Lemma C5_update_counterexample :
  ~ update_effect todo1
      (mkProps None None None None None None None None (Some 2)) world1 1 row1
  /\ ~ update_effect todo1
      (mkProps None None None None None None None (Some 5) None) world1 1 row1
  /\ ~ update_effect todo1 noProps world1 1 row1
  /\ ~ update_effect todo1 (titleOnly long_title) world1 1 row1
  /\ ~ update_effect todo1
      (mkProps (Some 2) None None None None None None None None) world1 1 row1
  /\ stored (db (snd (Todo.update todo1
        (mkProps None None None None None None None None (Some 2)) world1))) 1
     = Some row1.
Proof.
  repeat split; try (intros (t' & w' & r' & Hrun & _); discriminate Hrun).
Qed.

(* ================================================================== *)
(** ** The status of a Todo along a run of the controller *)
(* ================================================================== *)

Lemma stored_keyed (d : Store) (i : Z) (r : TodoRow.t) :
  keyed d -> stored d i = Some r -> i <= todos_id_seq d.
Proof.
  intros Hk Hst. rewrite <- (stored_has_id _ _ _ Hst). apply Hk.
  unfold stored in Hst. apply find_some in Hst. tauto.
Qed.

Lemma evolves_refl (d : Store) : evolves d d.
Proof.
  intros Hk. split; [ exact Hk | split; [ lia | split ] ].
  - intros i H. rewrite H. discriminate.
  - intros i _ H. exact H.
Qed.

Lemma evolves_trans (d1 d2 d3 : Store) :
  evolves d1 d2 -> evolves d2 d3 -> evolves d1 d3.
Proof.
  intros H12 H23 Hk1.
  destruct (H12 Hk1) as (Hk2 & Hs12 & Hb12 & Hc12).
  destruct (H23 Hk2) as (Hk3 & Hs23 & Hb23 & Hc23).
  split; [ exact Hk3 | ]. split; [ lia | ]. split.
  - intros i Hi. pose proof (Hb12 i Hi) as Hmid.
    unfold stored_status in Hi.
    destruct (stored d1 i) as [r1|] eqn:E1; [ | discriminate ].
    pose proof (stored_keyed _ _ _ Hk1 E1) as Hle.
    unfold stored_status in Hmid.
    destruct (stored d2 i) as [r2|] eqn:E2.
    + apply Hb23. unfold stored_status. rewrite E2. cbn in *.
      destruct (TodoRow.status r2); congruence.
    + unfold stored_status. rewrite (Hc23 i) by (assumption || lia).
      discriminate.
  - intros i Hle Hi. apply Hc23; [ lia | ]. apply Hc12; assumption.
Qed.

Lemma find_filter {A} (p q : A -> bool) (l : list A) :
  find p (filter q l) = find (fun x => q x && p x) l.
Proof.
  induction l as [|x l IH]; [ reflexivity | ].
  cbn [filter find]. destruct (q x); cbn [andb find]; rewrite IH;
    reflexivity.
Qed.

Lemma find_pointwise {A} (p q : A -> bool) (l : list A) :
  (forall x, p x = q x) -> find p l = find q l.
Proof.
  intros H. induction l as [|x l IH]; [ reflexivity | ].
  cbn [find]. rewrite H, IH. reflexivity.
Qed.

Lemma find_never {A} (p : A -> bool) (l : list A) :
  (forall x, p x = false) -> find p l = None.
Proof.
  intros H. induction l as [|x l IH]; [ reflexivity | ].
  cbn [find]. rewrite H. exact IH.
Qed.

Lemma find_snoc {A} (p : A -> bool) (l : list A) (a : A) :
  find p (l ++ [a])
  = match find p l with
    | Some x => Some x
    | None => if p a then Some a else None
    end.
Proof.
  induction l as [|x l IH]; [ reflexivity | ].
  cbn [app find]. destruct (p x); [ reflexivity | exact IH ].
Qed.

(** [INSERT] with the id drawn from the sequence. *)
Lemma insert_evolves (p : TodoProps) (ts : Date) (d : Store) :
  id p = None -> evolves d (snd (SQL.insert_todos p ts d)).
Proof.
  intros Hid. unfold SQL.insert_todos. rewrite Hid.
  destruct (title p); [ | apply evolves_refl ].
  destruct (description p); [ | apply evolves_refl ].
  destruct (userId p); [ apply evolves_refl | ].
  assert (Hbump : evolves d (mkStore (todos d) (todos_id_seq d + 1)
                                     (subtodos d))).
  { intros Hk. split; [ | split; [ cbn; lia | split ] ].
    - intros r Hr. cbn in *. specialize (Hk r Hr). lia.
    - intros i Hi. unfold stored_status, stored in *. cbn [todos].
      rewrite Hi. discriminate.
    - intros i _ Hi. exact Hi. }
  destruct (SQL.too_long _); [ exact Hbump | ].
  destruct (existsb _ _); [ exact Hbump | ].
  cbn [snd]. intros Hk. split; [ | split; [ cbn; lia | split ] ].
  - intros r Hr. cbn [todos todos_id_seq] in *. apply in_app_or in Hr.
    destruct Hr as [Hr | [Hr | []]].
    + specialize (Hk r Hr). lia.
    + subst r. cbn. lia.
  - intros i Hi. unfold stored_status, stored in *. cbn [todos].
    rewrite find_snoc.
    destruct (find (SQL.has_id i) (todos d)); [ | discriminate ].
    cbn in *. congruence.
  - intros i Hle Hi. unfold stored in *. cbn [todos].
    rewrite find_snoc, Hi. unfold SQL.has_id. cbn [TodoRow.id].
    destruct (todos_id_seq d + 1 =? i) eqn:E; [ lia | reflexivity ].
Qed.

Lemma select_by_id_evolves (i : JsNumber) (ts : Date) (d : Store) :
  evolves d (snd (SQL.select_by_id i ts d)).
Proof. destruct i; apply evolves_refl. Qed.

Lemma select_all_evolves (ts : Date) (d : Store) :
  evolves d (snd (SQL.select_all ts d)).
Proof. apply evolves_refl. Qed.

(** [UPDATE] that leaves the key alone and sets the status, if at all,
    to complete. *)
Lemma update_evolves (P : TodoProps) (now : Date) (i : option Z)
    (ts : Date) (d : Store) :
  id P = None ->
  status P = None \/ status P = Some complete ->
  evolves d (snd (SQL.update_todos P now i ts d)).
Proof.
  intros Hid Hstatus. unfold SQL.update_todos.
  destruct i as [i|]; [ | apply evolves_refl ].
  destruct (SQL.no_columns P); [ apply evolves_refl | ].
  destruct (userId P); [ apply evolves_refl | ].
  destruct (editedAt P); [ apply evolves_refl | ].
  destruct (existsb _ _); [ | apply evolves_refl ].
  destruct (SQL.too_long _); [ apply evolves_refl | ].
  destruct (SQL.rekey_error i P d); [ apply evolves_refl | ].
  cbn [snd].
  assert (Hkey : forall r, TodoRow.id (SQL.assign P now r) = TodoRow.id r).
  { intros r. unfold SQL.assign. cbn. rewrite Hid. reflexivity. }
  intros Hk. split; [ | split; [ cbn; lia | split ] ].
  - intros r Hr. cbn [todos todos_id_seq] in *. apply in_map_iff in Hr.
    destruct Hr as (x & Hx & Hin). subst r. specialize (Hk x Hin).
    destruct (SQL.has_id i x); [ rewrite Hkey | ]; exact Hk.
  - intros j Hj. unfold stored_status, stored in *. cbn [todos].
    destruct (Z.eq_dec i j) as [-> | Hne].
    + rewrite (find_map_same_key j _ _ Hkey).
      destruct (find (SQL.has_id j) (todos d)) as [r|]; [ | discriminate ].
      cbn in *. destruct Hstatus as [-> | ->]; cbn; congruence.
    + rewrite (find_map_other_key i j _ _ Hkey Hne). rewrite Hj.
      discriminate.
  - intros j _ Hj. unfold stored in *. cbn [todos].
    destruct (Z.eq_dec i j) as [-> | Hne].
    + rewrite (find_map_same_key j _ _ Hkey), Hj. reflexivity.
    + rewrite (find_map_other_key i j _ _ Hkey Hne). exact Hj.
Qed.

Lemma delete_evolves (i : option Z) (ts : Date) (d : Store) :
  evolves d (snd (SQL.delete_todos i ts d)).
Proof.
  unfold SQL.delete_todos. destruct i as [i|]; [ | apply evolves_refl ].
  cbn [snd]. intros Hk. split; [ | split; [ cbn; lia | split ] ].
  - intros r Hr. cbn [todos todos_id_seq] in *. apply filter_In in Hr.
    apply Hk. tauto.
  - intros j Hj. unfold stored_status, stored in *. cbn [todos].
    rewrite find_filter. destruct (Z.eq_dec i j) as [-> | Hne].
    + rewrite find_never; [ discriminate | ].
      intros x. destruct (SQL.has_id j x); reflexivity.
    + rewrite (find_pointwise _ (SQL.has_id j)); [ rewrite Hj; discriminate | ].
      intros x. unfold SQL.has_id.
      destruct (TodoRow.id x =? i) eqn:E1, (TodoRow.id x =? j) eqn:E2;
        try reflexivity; lia.
  - intros j _ Hj. unfold stored in *. cbn [todos]. rewrite find_filter.
    destruct (find (fun x => negb (SQL.has_id i x) && SQL.has_id j x)
                   (todos d)) as [x|] eqn:E; [ exfalso | reflexivity ].
    apply find_some in E. destruct E as [Hin Hx].
    apply andb_prop in Hx. destruct Hx as [_ Hx].
    rewrite (find_none _ _ Hj x Hin) in Hx. discriminate.
Qed.

#[local] Instance evolves_preorder : PreOrder evolves.
Proof.
  split; [ exact evolves_refl | exact evolves_trans ].
Qed.

#[local] Instance same_status_preorder : PreOrder same_status.
Proof.
  split.
  - intros d i. reflexivity.
  - intros d1 d2 d3 H12 H23 i. rewrite H23. apply H12.
Qed.

#[local] Instance completes_preorder : PreOrder completes.
Proof.
  split.
  - intros d i. left. reflexivity.
  - intros d1 d2 d3 H12 H23 i.
    destruct (H23 i) as [H | H]; [ rewrite H; apply H12 | right; exact H ].
Qed.

(** Respect is compositional when [R] is a preorder. *)
Section Respects.

Context (R : Store -> Store -> Prop) `{!PreOrder R}.

Lemma respects_ret {A} (a : A) : respects R (ret a).
Proof. intros w. reflexivity. Qed.

Lemma respects_throw {A} (e : Error) : respects R (@throw A e).
Proof. intros w. reflexivity. Qed.

Lemma respects_createUTCDate : respects R createUTCDate.
Proof. intros w. reflexivity. Qed.

Lemma respects_console_error (s : string) (e : Error) :
  respects R (console_error s e).
Proof. intros w. reflexivity. Qed.

Lemma respects_reserve : respects R reserve.
Proof.
  intros w. unfold reserve. destruct (fault w (stmts w)); reflexivity.
Qed.

Lemma respects_statement {A} (q : Date -> Store -> Result A * Store) :
  (forall ts d, R d (snd (q ts d))) -> respects R (statement q).
Proof.
  intros Hq w. unfold statement. specialize (Hq (clock w (reads w)) (db w)).
  destruct (q (clock w (reads w)) (db w)) as [r d]. exact Hq.
Qed.

Lemma respects_bind {A B} (m : M A) (k : A -> M B) :
  respects R m -> (forall a, respects R (k a)) -> respects R (bind m k).
Proof.
  intros Hm Hk w. unfold bind. specialize (Hm w).
  destruct (m w) as [[a|e] w1]; cbn [snd] in *; [ | exact Hm ].
  etransitivity; [ exact Hm | apply Hk ].
Qed.

Lemma respects_try_catch {A} (m : M A) (h : Error -> M A) :
  respects R m -> (forall e, respects R (h e)) -> respects R (try_catch m h).
Proof.
  intros Hm Hh w. unfold try_catch. specialize (Hm w).
  destruct (m w) as [[a|e] w1]; cbn [snd] in *; [ exact Hm | ].
  etransitivity; [ exact Hm | apply Hh ].
Qed.

End Respects.

(** Respect of a computation follows its structure. *)
Ltac preorder :=
  try match goal with
      | |- PreOrder _ => typeclasses eauto
      end.

Ltac respect_step :=
  match goal with
  | |- respects _ (bind _ _) =>
      apply respects_bind; preorder; [ | intros ? ]
  | |- respects _ (try_catch _ _) =>
      apply respects_try_catch; preorder; [ | intros ? ]
  | |- respects _ (ret _) => apply respects_ret; preorder
  | |- respects _ (throw _) => apply respects_throw; preorder
  | |- respects _ createUTCDate => apply respects_createUTCDate; preorder
  | |- respects _ (console_error _ _) =>
      apply respects_console_error; preorder
  | |- respects _ reserve => apply respects_reserve; preorder
  | |- respects _ (statement _) => apply respects_statement
  | |- respects _ (match ?x with _ => _ end) => destruct x
  end.

Ltac respect := repeat respect_step.

(** The reading methods leave the store alone. *)
Section Reading.

Context (R : Store -> Store -> Prop) `{!PreOrder R}.

Lemma read_respects (i : JsNumber) : respects R (Todo.read i).
Proof.
  unfold Todo.read. respect. intros ts d. destruct i; reflexivity.
Qed.

Lemma readAll_respects (u : option Z) (f : option TodoProps)
    (s o : option string) : respects R (Todo.readAll u f s o).
Proof. unfold Todo.readAll. respect. intros ts d. reflexivity. Qed.

End Reading.

(** [UPDATE] that assigns neither key nor status. *)
Lemma update_same_status (P : TodoProps) (now : Date) (i : option Z)
    (ts : Date) (d : Store) :
  id P = None -> status P = None ->
  same_status d (snd (SQL.update_todos P now i ts d)).
Proof.
  intros Hid Hstatus. unfold SQL.update_todos.
  destruct i as [i|]; [ | reflexivity ].
  destruct (SQL.no_columns P); [ reflexivity | ].
  destruct (userId P); [ reflexivity | ].
  destruct (editedAt P); [ reflexivity | ].
  destruct (existsb _ _); [ | reflexivity ].
  destruct (SQL.too_long _); [ reflexivity | ].
  destruct (SQL.rekey_error i P d); [ reflexivity | ].
  cbn [snd].
  assert (Hkey : forall r, TodoRow.id (SQL.assign P now r) = TodoRow.id r).
  { intros r. unfold SQL.assign. cbn. rewrite Hid. reflexivity. }
  intros j. unfold stored_status, stored. cbn [todos].
  destruct (Z.eq_dec i j) as [-> | Hne].
  - rewrite (find_map_same_key j _ _ Hkey).
    destruct (find (SQL.has_id j) (todos d)) as [r|]; [ | reflexivity ].
    cbn. rewrite Hstatus. reflexivity.
  - rewrite (find_map_other_key i j _ _ Hkey Hne). reflexivity.
Qed.

(** [UPDATE] that assigns [complete] to the status and leaves the key. *)
Lemma update_completes (P : TodoProps) (now : Date) (i : option Z)
    (ts : Date) (d : Store) :
  id P = None -> status P = Some complete ->
  completes d (snd (SQL.update_todos P now i ts d)).
Proof.
  intros Hid Hstatus. unfold SQL.update_todos.
  destruct i as [i|]; [ | reflexivity ].
  destruct (SQL.no_columns P); [ reflexivity | ].
  destruct (userId P); [ reflexivity | ].
  destruct (editedAt P); [ reflexivity | ].
  destruct (existsb _ _); [ | reflexivity ].
  destruct (SQL.too_long _); [ reflexivity | ].
  destruct (SQL.rekey_error i P d); [ reflexivity | ].
  cbn [snd].
  assert (Hkey : forall r, TodoRow.id (SQL.assign P now r) = TodoRow.id r).
  { intros r. unfold SQL.assign. cbn. rewrite Hid. reflexivity. }
  intros j. unfold stored_status, stored. cbn [todos].
  destruct (Z.eq_dec i j) as [-> | Hne].
  - rewrite (find_map_same_key j _ _ Hkey).
    destruct (find (SQL.has_id j) (todos d)) as [r|];
      [ right | left; reflexivity ].
    cbn. rewrite Hstatus. reflexivity.
  - left. rewrite (find_map_other_key i j _ _ Hkey Hne). reflexivity.
Qed.

(** The writing methods, as the controller calls them. *)
Lemma create_evolves (p : TodoProps) :
  id p = None -> respects evolves (Todo.create p).
Proof.
  intros Hid. unfold Todo.create. respect;
    intros ts d; apply insert_evolves; destruct p; exact Hid.
Qed.

Lemma update_method_evolves (t : Todo.t) (P : TodoProps) :
  id P = None ->
  status P = None \/ status P = Some complete ->
  respects evolves (Todo.update t P).
Proof.
  intros Hid Hs. unfold Todo.update. respect.
  intros ts d. apply update_evolves; assumption.
Qed.

Lemma delete_method_evolves (t : Todo.t) : respects evolves (Todo.delete t).
Proof. unfold Todo.delete. respect. apply delete_evolves. Qed.

Lemma markComplete_evolves (t : Todo.t) :
  respects evolves (Todo.markComplete t).
Proof.
  unfold Todo.markComplete. respect.
  apply update_method_evolves; [ reflexivity | right; reflexivity ].
Qed.

Lemma update_method_same_status (t : Todo.t) (P : TodoProps) :
  id P = None -> status P = None -> respects same_status (Todo.update t P).
Proof.
  intros Hid Hs. unfold Todo.update. respect.
  intros ts d. apply update_same_status; assumption.
Qed.

Lemma markComplete_completes (t : Todo.t) :
  respects completes (Todo.markComplete t).
Proof.
  unfold Todo.markComplete, Todo.update. respect.
  intros ts d. apply update_completes; reflexivity.
Qed.

(** Respect of a handler: its structure, then the entity module. *)
Ltac handler_respect :=
  repeat first
    [ respect_step
    | apply read_respects; preorder
    | apply readAll_respects; preorder
    | apply delete_method_evolves
    | apply markComplete_evolves
    | apply markComplete_completes
    | apply create_evolves; reflexivity
    | apply update_method_evolves; [ reflexivity | left; reflexivity ]
    | apply update_method_same_status; reflexivity ].

Lemma getNewTodoForm_evolves req :
  respects evolves (TodoController.getNewTodoForm req).
Proof. unfold TodoController.getNewTodoForm. handler_respect. Qed.

Lemma getEditTodoForm_evolves req :
  respects evolves (TodoController.getEditTodoForm req).
Proof. unfold TodoController.getEditTodoForm. cbv zeta. handler_respect. Qed.

Lemma getTodoList_evolves req :
  respects evolves (TodoController.getTodoList req).
Proof. unfold TodoController.getTodoList. handler_respect. Qed.

Lemma getTodo_evolves req : respects evolves (TodoController.getTodo req).
Proof. unfold TodoController.getTodo. cbv zeta. handler_respect. Qed.

Lemma createTodo_evolves req :
  respects evolves (TodoController.createTodo req).
Proof. unfold TodoController.createTodo. handler_respect. Qed.

Lemma updateTodo_evolves req :
  respects evolves (TodoController.updateTodo req).
Proof. unfold TodoController.updateTodo. cbv zeta. handler_respect. Qed.

Lemma deleteTodo_evolves req :
  respects evolves (TodoController.deleteTodo req).
Proof. unfold TodoController.deleteTodo. cbv zeta. handler_respect. Qed.

Lemma completeTodo_evolves req :
  respects evolves (TodoController.completeTodo req).
Proof. unfold TodoController.completeTodo. cbv zeta. handler_respect. Qed.

Lemma updateTodo_same_status req :
  respects same_status (TodoController.updateTodo req).
Proof. unfold TodoController.updateTodo. cbv zeta. handler_respect. Qed.

Lemma completeTodo_completes req :
  respects completes (TodoController.completeTodo req).
Proof. unfold TodoController.completeTodo. cbv zeta. handler_respect. Qed.

(** Under every handler of the controller the store evolves. *)
Lemma handlers_evolve (h : TodoController.Handler) (req : Request) :
  registered h -> respects evolves (h req).
Proof.
  intros (m & p & Hin). cbn in Hin.
  repeat (destruct Hin as [Heq | Hin]; [ inversion Heq; subst; clear Heq | ]);
    try contradiction.
  - apply getTodoList_evolves.
  - apply getNewTodoForm_evolves.
  - apply createTodo_evolves.
  - apply getEditTodoForm_evolves.
  - apply getTodo_evolves.
  - apply updateTodo_evolves.
  - apply deleteTodo_evolves.
  - apply completeTodo_evolves.
Qed.

(** Along a run of registered handlers the store evolves. *)
Lemma run_evolves (ops : list Op) (w : World) :
  Forall (fun o => registered (fst o)) ops ->
  evolves (db w) (db (run ops w)).
Proof.
  revert w. induction ops as [|[h req] ops IH]; intros w Hreg.
  - apply evolves_refl.
  - inversion Hreg as [|? ? Hh Hrest]; subst. cbn [run].
    eapply evolves_trans; [ | apply IH; exact Hrest ].
    unfold step. cbn [fst snd]. apply handlers_evolve. exact Hh.
Qed.

Lemma emptyStore_keyed : keyed emptyStore.
Proof. intros r []. Qed.

(** C6. Starting from a store whose id sequence is ahead of its rows (as
    the empty store is), along any sequence of operations of the
    controller, a Todo that is complete at some point is never incomplete
    afterwards: it is complete, or deleted for good.  [updateTodo] leaves
    every status as it is, and [completeTodo] leaves it as it is or makes
    it complete. *)
Theorem C6_complete_is_never_reopened :
  (forall (w0 : World) (before after : list Op) (i : Z),
      keyed (db w0) ->
      Forall (fun o => registered (fst o)) before ->
      Forall (fun o => registered (fst o)) after ->
      stored_status (db (run before w0)) i = Some complete ->
      stored_status (db (run after (run before w0))) i <> Some incomplete)
  /\ (forall req w i,
        stored_status (db (snd (TodoController.updateTodo req w))) i
        = stored_status (db w) i)
  /\ (forall req w i,
        stored_status (db (snd (TodoController.completeTodo req w))) i
        = stored_status (db w) i
        \/ stored_status (db (snd (TodoController.completeTodo req w))) i
           = Some complete).
Proof.
  split; [ | split ].
  - intros w0 before after i Hdb Hbefore Hafter Hcomplete.
    assert (Hk : keyed (db (run before w0))).
    { apply (run_evolves before w0 Hbefore). exact Hdb. }
    destruct (run_evolves after (run before w0) Hafter Hk)
      as (_ & _ & Hb & _).
    apply Hb. exact Hcomplete.
  - intros req w i. apply updateTodo_same_status.
  - intros req w i. apply completeTodo_completes.
Qed.

(** Create, complete, then edit: the Todo is still complete. *)
Lemma C6_complete_witness :
  stored_status
    (db (run [sample_update] (run [sample_create; sample_complete] world0))) 1
  <> Some incomplete.
Proof.
  apply (proj1 C6_complete_is_never_reopened world0
               [sample_create; sample_complete] [sample_update] 1).
  - exact emptyStore_keyed.
  - repeat constructor; eexists; eexists; cbn; tauto.
  - repeat constructor; eexists; eexists; cbn; tauto.
  - reflexivity.
Defined.

(* ================================================================== *)
(** ** [Todo.markComplete] *)
(* ================================================================== *)

Lemma markComplete_runs (t : Todo.t) (w : World) (i : Z) (r : TodoRow.t) :
  id (Todo.props t) = Some i ->
  stored (db w) i = Some r ->
  fault w (stmts w) = false ->
  let now := clock w (reads w) in
  let edited := clock w (S (reads w)) in
  Todo.markComplete t w
  = (Ok (Todo.mk (spread (Todo.props t)
                         (SQL.assign (Todo.completion now) edited r))),
     mkWorld (rewritten (Todo.completion now) edited i (db w)) (clock w)
             (S (S (reads w))) (fault w) (S (stmts w)) (log w)).
Proof.
  intros Hid Hst Hup now edited.
  unfold Todo.markComplete, bind, createUTCDate. fold (ticked w). fold now.
  apply (update_runs t (Todo.completion now) (ticked w) i r Hid Hst Hup);
    reflexivity.
Qed.

(** C7. [markComplete] is [update] applied to
    [{status: complete, completedAt: now}]; on a stored Todo and a
    reachable store it returns whatever the status was before, also when
    called a second time, and each time the Todo and its row end up
    complete. *)
Theorem C7_markComplete_is_update_and_idempotent :
  (forall t w,
      Todo.markComplete t w
      = (now <- createUTCDate ;;
         Todo.update t (mkProps None None None (Some complete) None None
                                (Some now) None None)) w)
  /\ (forall t w i r,
      id (Todo.props t) = Some i ->
      stored (db w) i = Some r ->
      fault w (stmts w) = false ->
      fault w (S (stmts w)) = false ->
      exists t1 w1 t2 w2,
        Todo.markComplete t w = (Ok t1, w1)
        /\ Todo.markComplete t1 w1 = (Ok t2, w2)
        /\ status (Todo.props t1) = Some complete
        /\ stored_status (db w1) i = Some complete
        /\ status (Todo.props t2) = Some complete
        /\ stored_status (db w2) i = Some complete).
Proof.
  split; [ reflexivity | ].
  intros t w i r Hid Hst Hup Hup'.
  pose proof (stored_has_id _ _ _ Hst) as Hri.
  pose proof (markComplete_runs t w i r Hid Hst Hup) as Hrun1.
  cbv zeta in Hrun1.
  set (now := clock w (reads w)) in *.
  set (edited := clock w (S (reads w))) in *.
  set (r1 := SQL.assign (Todo.completion now) edited r) in *.
  set (t1 := Todo.mk (spread (Todo.props t) r1)) in *.
  set (w1 := mkWorld (rewritten (Todo.completion now) edited i (db w))
                     (clock w) (S (S (reads w))) (fault w) (S (stmts w))
                     (log w)) in *.
  assert (Hst1 : stored (db w1) i = Some r1).
  { unfold stored, w1, rewritten. cbn [db todos].
    rewrite find_map_same_key by reflexivity.
    unfold stored in Hst. rewrite Hst. reflexivity. }
  assert (Hid1 : id (Todo.props t1) = Some i).
  { cbn. rewrite Hri. reflexivity. }
  pose proof (markComplete_runs t1 w1 i r1 Hid1 Hst1 Hup') as Hrun2.
  cbv zeta in Hrun2.
  exists t1, w1. eexists. eexists.
  split; [ exact Hrun1 | ]. split; [ exact Hrun2 | ].
  split; [ reflexivity | ].
  split; [ unfold stored_status; rewrite Hst1; reflexivity | ].
  split; [ reflexivity | ].
  unfold stored_status, stored, rewritten. cbn [db todos].
  rewrite find_map_same_key by reflexivity.
  fold (stored (db w1) i). rewrite Hst1. reflexivity.
Qed.

(** [markComplete] twice on the sample Todo. *)
Lemma C7_markComplete_witness :
  exists t1 w1 t2 w2,
    Todo.markComplete todo1 world1 = (Ok t1, w1)
    /\ Todo.markComplete t1 w1 = (Ok t2, w2)
    /\ status (Todo.props t1) = Some complete
    /\ stored_status (db w1) 1 = Some complete
    /\ status (Todo.props t2) = Some complete
    /\ stored_status (db w2) 1 = Some complete.
Proof.
  apply (proj2 C7_markComplete_is_update_and_idempotent todo1 world1 1 row1);
    reflexivity.
Defined.

(* ================================================================== *)
(** ** [Todo.delete] and the cascade to [subtodos] *)
(* ================================================================== *)

(** A primary key identifies the row. *)
Lemma key_identifies {A} (key : A -> Z) (l : list A) (a b : A) :
  NoDup (map key l) -> In a l -> In b l -> key a = key b -> a = b.
Proof.
  induction l as [|x l IH]; intros Hnd Ha Hb Hk; [ contradiction | ].
  cbn [map] in Hnd. inversion Hnd as [|? ? Hnotin Hnd']; subst.
  destruct Ha as [Ha | Ha], Hb as [Hb | Hb]; subst.
  - reflexivity.
  - exfalso. apply Hnotin. rewrite Hk. apply in_map. exact Hb.
  - exfalso. apply Hnotin. rewrite <- Hk. apply in_map. exact Ha.
  - apply IH; assumption.
Qed.

Lemma references_iff (i : Z) (s : SubtodoRow.t) :
  SQL.references i s = true <-> SubtodoRow.todo_id s = Some i.
Proof.
  unfold SQL.references. destruct (SubtodoRow.todo_id s) as [j|].
  - rewrite Z.eqb_eq. split; congruence.
  - split; discriminate.
Qed.

(** What [delete] leaves when it reports one deleted row. *)
Lemma delete_true_runs (t : Todo.t) (w w' : World) (i : Z) :
  id (Todo.props t) = Some i ->
  Todo.delete t w = (Ok true, w') ->
  todos (db w') = filter (fun r => negb (SQL.has_id i r)) (todos (db w))
  /\ subtodos (db w')
     = filter (fun s => negb (SQL.references i s)) (subtodos (db w)).
Proof.
  intros Hid. unfold Todo.delete. unfold_js. reduce_world.
  destruct (fault w (stmts w)); [ discriminate | ].
  rewrite Hid. unfold SQL.delete_todos. reduce_world.
  destruct (filter (SQL.has_id i) (todos (db w))) as [|x gone] eqn:E.
  - cbn. discriminate.
  - intros H. inversion H; subst. cbn [db todos subtodos]. split; reflexivity.
Qed.

(** C8. Once [t.delete()] has returned [true], no Subtodo row refers to
    [t] any more, the row of [t] is gone, and fetching by id any Subtodo
    that belonged to [t] finds nothing ([subtodos.id] being a primary
    key). *)
Theorem C8_delete_cascades_to_subtodos :
  forall t w w' i s,
    id (Todo.props t) = Some i ->
    Todo.delete t w = (Ok true, w') ->
    NoDup (map SubtodoRow.id (subtodos (db w))) ->
    In s (subtodos (db w)) ->
    SubtodoRow.todo_id s = Some i ->
    SQL.select_subtodo (SubtodoRow.id s) (db w') = None
    /\ stored (db w') i = None
    /\ (forall s', In s' (subtodos (db w')) -> SubtodoRow.todo_id s' <> Some i).
Proof.
  intros t w w' i s Hid Hrun Hpk Hin Hparent.
  destruct (delete_true_runs t w w' i Hid Hrun) as [Htodos Hsubs].
  assert (Hnone : forall s', In s' (subtodos (db w')) ->
                             SubtodoRow.todo_id s' <> Some i).
  { intros s' Hin'. rewrite Hsubs in Hin'. apply filter_In in Hin'.
    destruct Hin' as [_ Hneg]. apply negb_true_iff in Hneg.
    intros Habs. apply references_iff in Habs. congruence. }
  split; [ | split; [ | exact Hnone ] ].
  - unfold SQL.select_subtodo.
    destruct (find (fun x => SubtodoRow.id x =? SubtodoRow.id s) (subtodos (db w')))
      as [s2|] eqn:E; [ exfalso | reflexivity ].
    apply find_some in E. destruct E as [Hin2 Hk]. apply Z.eqb_eq in Hk.
    apply (Hnone s2 Hin2).
    rewrite Hsubs in Hin2. apply filter_In in Hin2. destruct Hin2 as [Hin2 _].
    rewrite (key_identifies SubtodoRow.id _ s2 s Hpk Hin2 Hin Hk). exact Hparent.
  - unfold stored. rewrite Htodos.
    destruct (find (SQL.has_id i)
                (filter (fun r => negb (SQL.has_id i r)) (todos (db w))))
      as [x|] eqn:E; [ exfalso | reflexivity ].
    apply find_some in E. destruct E as [Hx Hix].
    apply filter_In in Hx. destruct Hx as [_ Hneg].
    rewrite Hix in Hneg. discriminate.
Qed.

(** Deleting the sample Todo removes its Subtodo. *)
Lemma C8_delete_witness :
  SQL.select_subtodo 1 (db (snd (Todo.delete todo1 world1))) = None
  /\ stored (db (snd (Todo.delete todo1 world1))) 1 = None
  /\ (forall s', In s' (subtodos (db (snd (Todo.delete todo1 world1)))) ->
                 SubtodoRow.todo_id s' <> Some 1).
Proof.
  apply (C8_delete_cascades_to_subtodos todo1 world1
           (snd (Todo.delete todo1 world1)) 1 subrow1).
  - reflexivity.
  - reflexivity.
  - cbn. constructor; [ intros [] | constructor ].
  - left. reflexivity.
  - reflexivity.
Defined.

(* ================================================================== *)
(** ** [Todo.readAll] *)
(* ================================================================== *)

(** C9. [readAll] does not depend on [userId], [filters], [sortBy] or
    [orderBy]: two calls in the same world give the same result, and
    that result is every row of [todos], in table order, unless the store
    cannot be reached. *)
Theorem C9_readAll_ignores_its_arguments :
  forall u1 f1 s1 o1 u2 f2 s2 o2 w,
    Todo.readAll u1 f1 s1 o1 w = Todo.readAll u2 f2 s2 o2 w
    /\ fst (Todo.readAll u1 f1 s1 o1 w)
       = if fault w (stmts w) then Throw ConnectionError
         else Ok (map (fun row => Todo.mk (fromRow row)) (todos (db w))).
Proof.
  intros. split; [ reflexivity | ].
  unfold Todo.readAll. unfold_js. reduce_world.
  destruct (fault w (stmts w)); reflexivity.
Qed.

(* ================================================================== *)
(** ** [createTodo] *)
(* ================================================================== *)

Lemma stored_none_existsb (d : Store) (i : Z) :
  stored d i = None -> existsb (SQL.has_id i) (todos d) = false.
Proof.
  intros H. destruct (existsb (SQL.has_id i) (todos d)) eqn:E;
    [ | reflexivity ].
  destruct (existsb_stored d i E) as [r Hr]. congruence.
Qed.

(** C10. [createTodo] builds the new Todo from the [title] and the
    [description] of the body alone: requests that agree on these two
    get the same answer and leave the same world, whatever [dueAt] and
    [userId] they carry; a request with both, on a reachable store, gets
    201 and a row that is incomplete, has no due date, and was created at
    the time the server read; and whenever the answer carries a Todo it
    is incomplete, without due date and user, and created at that
    time. *)
Theorem C10_createTodo_uses_title_and_description_only :
  (forall req1 req2 w,
      body_title (body req1) = body_title (body req2) ->
      body_description (body req1) = body_description (body req2) ->
      TodoController.createTodo req1 w = TodoController.createTodo req2 w)
  /\ (forall req w ti de,
      body_title (body req) = Some ti ->
      body_description (body req) = Some de ->
      SQL.too_long (Some ti) = false ->
      fault w (stmts w) = false ->
      stored (db w) (todos_id_seq (db w) + 1) = None ->
      let i := todos_id_seq (db w) + 1 in
      let row := TodoRow.mk i ti de incomplete None (clock w (reads w))
                        None None in
      exists w',
        TodoController.createTodo req w
        = (Ok (mkResponse Created "Todo created successfully!"
                          (TodoPayload (Some (fromRow row))) None
                          (Some ("/todos/" ++ show_Z i))), w')
        /\ db w' = mkStore (todos (db w) ++ [row]) i (subtodos (db w)))
  /\ (forall req w r w' p,
      TodoController.createTodo req w = (Ok r, w') ->
      payload r = TodoPayload (Some p) ->
      status p = Some incomplete
      /\ dueAt p = None
      /\ userId p = None
      /\ createdAt p = Some (clock w (reads w))).
Proof.
  split; [ | split ].
  - intros req1 req2 w Ht Hd. unfold TodoController.createTodo.
    rewrite Ht, Hd. reflexivity.
  - intros req w ti de Ht Hd Hlen Hup Hfree i row.
    unfold TodoController.createTodo, Todo.create. unfold_js. reduce_world.
    rewrite Hup. unfold SQL.insert_todos, set_createdAt.
    cbn [title description userId id status dueAt createdAt completedAt
         editedAt].
    rewrite Ht, Hd, Hlen. subst i row. reduce_world.
    rewrite (stored_none_existsb _ _ Hfree).
    eexists. split; reflexivity.
  - intros req w r w' p. unfold TodoController.createTodo, Todo.create.
    unfold_js. reduce_world. unfold SQL.insert_todos, set_createdAt.
    cbn [title description userId id status dueAt createdAt completedAt
         editedAt].
    branch; intros H Hp; inversion H; subst; cbn in Hp;
      try discriminate; inversion Hp; subst; repeat split.
Qed.

(** Two requests that differ in [dueAt], [userId], session and id get the
    same Todo on a fresh store. *)
Lemma C10_createTodo_witness :
  TodoController.createTodo
    (mkRequest None NaN
       (mkBody (Some "Buy milk") (Some "Two litres") None None)) world0
  = TodoController.createTodo sample_request world0
  /\ (exists w',
      TodoController.createTodo sample_request world0
      = (Ok (mkResponse Created "Todo created successfully!"
               (TodoPayload
                  (Some (fromRow (TodoRow.mk 1 "Buy milk" "Two litres"
                                         incomplete None 1700000000000
                                         None None))))
               None (Some "/todos/1")), w')
      /\ db w' = mkStore [TodoRow.mk 1 "Buy milk" "Two litres" incomplete None
                                 1700000000000 None None] 1 [])
  /\ (status (fromRow row1) = Some incomplete
      /\ dueAt (fromRow row1) = None
      /\ userId (fromRow row1) = None
      /\ createdAt (fromRow row1) = Some (clock world0 (reads world0))).
Proof.
  split; [ | split ].
  - apply (proj1 C10_createTodo_uses_title_and_description_only);
      reflexivity.
  - apply (proj1 (proj2 C10_createTodo_uses_title_and_description_only)
             sample_request world0 "Buy milk" "Two litres");
      reflexivity.
  - apply (proj2 (proj2 C10_createTodo_uses_title_and_description_only)
             sample_request world0
             (mkResponse Created "Todo created successfully!"
                (TodoPayload (Some (fromRow row1))) None (Some "/todos/1"))
             (snd (TodoController.createTodo sample_request world0))
             (fromRow row1));
      reflexivity.
Defined.

(* ================================================================== *)
(** * Further properties *)
(* ================================================================== *)

(* ================================================================== *)
(** ** What the entity methods compute *)
(* ================================================================== *)

Lemma existsb_false_stored (d : Store) (i : Z) :
  existsb (SQL.has_id i) (todos d) = false -> stored d i = None.
Proof.
  intros H. destruct (stored d i) as [r|] eqn:E; [ | reflexivity ].
  rewrite (stored_existsb _ _ _ E) in H. discriminate.
Qed.

(** [read] on a reachable store. *)
Lemma read_runs (i : Z) (w : World) :
  fault w (stmts w) = false ->
  Todo.read (Int i) w
  = (Ok (option_map (fun r => Todo.mk (fromRow r)) (stored (db w) i)),
     used w).
Proof.
  intros Hup. unfold Todo.read, used. unfold_js. reduce_world.
  rewrite Hup. unfold SQL.select_by_id, stored. reduce_world.
  destruct (find (SQL.has_id i) (todos (db w))); reflexivity.
Qed.

(** What a successful [create] did. *)
Lemma create_ok (p : TodoProps) (w w1 : World) (t : Todo.t) :
  Todo.create p w = (Ok t, w1) ->
  exists row,
    t = Todo.mk (fromRow row)
    /\ todos (db w1) = (todos (db w) ++ [row])%list
    /\ subtodos (db w1) = subtodos (db w)
    /\ stored (db w) (TodoRow.id row) = None
    /\ title p = Some (TodoRow.title row)
    /\ description p = Some (TodoRow.description row)
    /\ userId p = None
    /\ fault w1 = fault w
    /\ stmts w1 = S (stmts w)
    /\ TodoRow.status row
       = match status p with Some st => st | None => incomplete end
    /\ TodoRow.due_at row = dueAt p.
Proof.
  unfold Todo.create. unfold_js. reduce_world.
  destruct (fault w (stmts w)); [ discriminate | ].
  destruct (createdAt p) as [c|]; reduce_world;
    unfold SQL.insert_todos, set_createdAt;
    cbn [title description userId id status dueAt createdAt completedAt
         editedAt];
    destruct (title p) as [ti|]; try discriminate;
    destruct (description p) as [de|]; try discriminate;
    destruct (userId p); try discriminate;
    destruct (SQL.too_long (Some ti)); try discriminate;
    match goal with
    | |- context [existsb ?f ?l] => destruct (existsb f l) eqn:E
    end; try discriminate;
    reduce_world; intros H; inversion H; subst; clear H;
    eexists; (split; [ reflexivity | ]); cbn [db todos subtodos TodoRow.id
      TodoRow.title TodoRow.description TodoRow.status TodoRow.due_at fault stmts];
    repeat split; apply existsb_false_stored; exact E.
Qed.

Lemma keyed_fresh (d : Store) :
  keyed d -> existsb (SQL.has_id (todos_id_seq d + 1)) (todos d) = false.
Proof.
  intros Hk. destruct (existsb _ _) eqn:E; [ exfalso | reflexivity ].
  apply existsb_exists in E. destruct E as (r & Hin & Hid).
  unfold SQL.has_id in Hid. specialize (Hk r Hin). lia.
Qed.

Lemma keyed_snoc (d : Store) (row : TodoRow.t) :
  keyed d -> TodoRow.id row = todos_id_seq d + 1 ->
  keyed (mkStore (todos d ++ [row]) (todos_id_seq d + 1) (subtodos d)).
Proof.
  intros Hk Hid r Hr. cbn [todos todos_id_seq] in *.
  apply in_app_or in Hr. destruct Hr as [Hr | [Hr | []]].
  - specialize (Hk r Hr). lia.
  - subst r. lia.
Qed.

(** X1. A Todo that [create] returned is what [read] of its id returns
    next, and is the last element of what [readAll] returns next, after
    the Todos that were stored before. *)
Theorem X1_create_then_read :
  forall p w t w1 u f s o,
    Todo.create p w = (Ok t, w1) ->
    fault w1 (stmts w1) = false ->
    exists i,
      id (Todo.props t) = Some i
      /\ Todo.read (Int i) w1 = (Ok (Some t), used w1)
      /\ fst (Todo.readAll u f s o w1)
         = Ok (map (fun r => Todo.mk (fromRow r)) (todos (db w)) ++ [t])%list.
Proof.
  intros p w t w1 u f s o Hcreate Hup.
  destruct (create_ok p w w1 t Hcreate)
    as (row & -> & Htodos & _ & Hfresh & _).
  exists (TodoRow.id row). split; [ reflexivity | ].
  assert (Hst : stored (db w1) (TodoRow.id row) = Some row).
  { unfold stored in *. rewrite Htodos, find_snoc, Hfresh.
    unfold SQL.has_id. rewrite Z.eqb_refl. reflexivity. }
  split.
  - rewrite (read_runs _ _ Hup), Hst. reflexivity.
  - unfold Todo.readAll. unfold_js. reduce_world. rewrite Hup.
    unfold SQL.select_all. reduce_world. rewrite Htodos, map_app.
    reflexivity.
Qed.

Lemma X1_create_then_read_witness :
  exists i,
    id (Todo.props todo1) = Some i
    /\ Todo.read (Int i) (snd (Todo.create props1 world0))
       = (Ok (Some todo1), used (snd (Todo.create props1 world0)))
    /\ fst (Todo.readAll (Some 1) None None None
                         (snd (Todo.create props1 world0)))
       = Ok (map (fun r => Todo.mk (fromRow r)) (todos (db world0))
             ++ [todo1])%list.
Proof.
  apply (X1_create_then_read props1 world0 todo1
           (snd (Todo.create props1 world0))); reflexivity.
Defined.

(** X2. On a reachable store whose id sequence is ahead of its rows,
    [create] of properties with a title of at most 255 characters and a
    description, without [id] and [userId], always succeeds: the Todo
    gets the next value of the sequence, an id above that of every
    stored row, and the sequence stays ahead. *)
Theorem X2_create_succeeds_with_next_id :
  forall p w ti de,
    title p = Some ti ->
    description p = Some de ->
    id p = None ->
    userId p = None ->
    SQL.too_long (Some ti) = false ->
    keyed (db w) ->
    fault w (stmts w) = false ->
    exists t w1,
      Todo.create p w = (Ok t, w1)
      /\ id (Todo.props t) = Some (todos_id_seq (db w) + 1)
      /\ title (Todo.props t) = Some ti
      /\ description (Todo.props t) = Some de
      /\ (forall r, In r (todos (db w)) ->
                    TodoRow.id r < todos_id_seq (db w) + 1)
      /\ todos_id_seq (db w1) = todos_id_seq (db w) + 1
      /\ keyed (db w1).
Proof.
  intros p w ti de Ht Hd Hid Hu Hlen Hk Hup.
  pose proof (keyed_fresh _ Hk) as Hfresh.
  assert (Hbelow : forall r, In r (todos (db w)) ->
                             TodoRow.id r < todos_id_seq (db w) + 1).
  { intros r Hr. specialize (Hk r Hr). lia. }
  unfold Todo.create. unfold_js. reduce_world. rewrite Hup.
  destruct (createdAt p) as [c|]; reduce_world;
    unfold SQL.insert_todos, set_createdAt;
    cbn [title description userId id status dueAt createdAt completedAt
         editedAt];
    rewrite Ht, Hd, Hu, Hid, Hlen, Hfresh; reduce_world;
    eexists; eexists; (split; [ reflexivity | ]);
    cbn [Todo.props fromRow id title description db todos todos_id_seq
         TodoRow.id TodoRow.title TodoRow.description];
    (split; [ reflexivity | ]); (split; [ reflexivity | ]);
    (split; [ reflexivity | ]); (split; [ exact Hbelow | ]);
    (split; [ reflexivity | ]);
    (apply keyed_snoc; [ exact Hk | reflexivity ]).
Qed.

Lemma X2_create_succeeds_witness :
  exists t w1,
    Todo.create props1 world2 = (Ok t, w1)
    /\ id (Todo.props t) = Some (todos_id_seq (db world2) + 1)
    /\ title (Todo.props t) = Some "Buy milk"
    /\ description (Todo.props t) = Some "Two litres"
    /\ (forall r, In r (todos (db world2)) ->
                  TodoRow.id r < todos_id_seq (db world2) + 1)
    /\ todos_id_seq (db w1) = todos_id_seq (db world2) + 1
    /\ keyed (db w1).
Proof.
  apply (X2_create_succeeds_with_next_id props1 world2
           "Buy milk" "Two litres"); try reflexivity.
  intros r [Hr | [Hr | []]]; subst r; cbn; lia.
Defined.

(** X3. [create] of properties that carry a [userId] never succeeds: the
    table [todos] has no column for it, so the call throws, and neither
    the rows nor the id sequence change. *)
Theorem X3_create_with_userId_throws :
  forall p w u,
    userId p = Some u ->
    exists e w1,
      Todo.create p w = (Throw e, w1)
      /\ db w1 = db w.
Proof.
  intros p w u Hu. unfold Todo.create. unfold_js. reduce_world.
  destruct (fault w (stmts w));
    [ eexists; eexists; split; reflexivity | ].
  destruct (createdAt p) as [c|]; reduce_world;
    unfold SQL.insert_todos, set_createdAt;
    cbn [title description userId id status dueAt createdAt completedAt
         editedAt];
    rewrite Hu;
    (destruct (title p); [ destruct (description p) | ]); reduce_world;
    eexists; eexists; split; reflexivity.
Qed.

Lemma X3_create_with_userId_witness :
  exists e w1,
    Todo.create (mkProps None (Some "Test Todo")
                         (Some "This is a test todo") (Some incomplete)
                         None (Some 1700000000000) None None (Some 1))
                world0
    = (Throw e, w1)
    /\ db w1 = db world0.
Proof.
  apply (X3_create_with_userId_throws _ world0 1). reflexivity.
Defined.

(* ================================================================== *)
(** ** [Todo.delete] in full *)
(* ================================================================== *)

Lemma find_filter_out (i : Z) (l : list TodoRow.t) :
  find (SQL.has_id i) (filter (fun r => negb (SQL.has_id i r)) l) = None.
Proof.
  rewrite find_filter. apply find_never.
  intros x. destruct (SQL.has_id i x); reflexivity.
Qed.

Lemma find_filter_other (i j : Z) (l : list TodoRow.t) :
  j <> i ->
  find (SQL.has_id j) (filter (fun r => negb (SQL.has_id i r)) l)
  = find (SQL.has_id j) l.
Proof.
  intros Hne. rewrite find_filter. apply find_pointwise.
  intros x. unfold SQL.has_id.
  destruct (TodoRow.id x =? i) eqn:E1, (TodoRow.id x =? j) eqn:E2;
    try reflexivity; lia.
Qed.

Lemma filter_none (i : Z) (l : list TodoRow.t) :
  find (SQL.has_id i) l = None ->
  filter (SQL.has_id i) l = []
  /\ filter (fun r => negb (SQL.has_id i r)) l = l.
Proof.
  induction l as [|x l IH]; intros H; [ split; reflexivity | ].
  cbn [find] in H. cbn [filter].
  destruct (SQL.has_id i x); [ discriminate | ].
  destruct (IH H) as [-> ->]. split; reflexivity.
Qed.

(** Under the primary key one row at most has a given id. *)
Lemma filter_one (i : Z) (l : list TodoRow.t) (r : TodoRow.t) :
  NoDup (map TodoRow.id l) ->
  find (SQL.has_id i) l = Some r ->
  List.length (filter (SQL.has_id i) l) = 1%nat.
Proof.
  induction l as [|x l IH]; intros Hnd H; [ discriminate | ].
  cbn [map] in Hnd. inversion Hnd as [|? ? Hnotin Hnd']; subst.
  cbn [find] in H. cbn [filter].
  destruct (SQL.has_id i x) eqn:E.
  - destruct (find (SQL.has_id i) l) as [y|] eqn:F.
    + exfalso. apply find_some in F. destruct F as [Hy Hiy].
      unfold SQL.has_id in *. apply Hnotin.
      replace (TodoRow.id x) with (TodoRow.id y) by lia. apply in_map. exact Hy.
    + destruct (filter_none i l F) as [-> _]. reflexivity.
  - apply IH; assumption.
Qed.

(** What a [delete] that returned did. *)
Lemma delete_ok (t : Todo.t) (w w1 : World) (i : Z) (b : bool) :
  id (Todo.props t) = Some i ->
  Todo.delete t w = (Ok b, w1) ->
  b = (Z.of_nat (List.length (filter (SQL.has_id i) (todos (db w)))) =? 1)
  /\ todos (db w1) = filter (fun r => negb (SQL.has_id i r)) (todos (db w))
  /\ subtodos (db w1)
     = match filter (SQL.has_id i) (todos (db w)) with
       | [] => subtodos (db w)
       | _ :: _ =>
           filter (fun s => negb (SQL.references i s)) (subtodos (db w))
       end
  /\ todos_id_seq (db w1) = todos_id_seq (db w)
  /\ fault w1 = fault w
  /\ stmts w1 = S (stmts w)
  /\ log w1 = log w.
Proof.
  intros Hid. unfold Todo.delete. unfold_js. reduce_world.
  destruct (fault w (stmts w)); [ discriminate | ].
  rewrite Hid. unfold SQL.delete_todos. reduce_world.
  intros H. inversion H; subst; clear H. cbn [db todos subtodos
    todos_id_seq fault stmts log]. repeat split.
Qed.

(** X4. After [delete] has returned, [read] of the id of the deleted
    Todo returns [null]. *)
Theorem X4_delete_then_read :
  forall t w b w1 i,
    id (Todo.props t) = Some i ->
    Todo.delete t w = (Ok b, w1) ->
    fault w1 (stmts w1) = false ->
    Todo.read (Int i) w1 = (Ok None, used w1).
Proof.
  intros t w b w1 i Hid Hdel Hup.
  destruct (delete_ok t w w1 i b Hid Hdel) as (_ & Htodos & _).
  rewrite (read_runs _ _ Hup). unfold stored.
  rewrite Htodos, find_filter_out. reflexivity.
Qed.

Lemma X4_delete_then_read_witness :
  Todo.read (Int 1) (snd (Todo.delete todo1 world1))
  = (Ok None, used (snd (Todo.delete todo1 world1))).
Proof.
  apply (X4_delete_then_read todo1 world1 true); reflexivity.
Defined.

(** X5. On a reachable store [delete] tells whether the Todo was stored:
    it returns [true] when a row has the id (the ids being distinct), and
    [false], leaving the store as it is, when none has. *)
Theorem X5_delete_reports_the_row :
  forall t w i,
    id (Todo.props t) = Some i ->
    fault w (stmts w) = false ->
    (forall r, pk (db w) -> stored (db w) i = Some r ->
               exists w1, Todo.delete t w = (Ok true, w1))
    /\ (stored (db w) i = None ->
        exists w1, Todo.delete t w = (Ok false, w1) /\ db w1 = db w).
Proof.
  intros t w i Hid Hup. split.
  - intros r Hpk Hst. unfold Todo.delete. unfold_js. reduce_world.
    rewrite Hup, Hid. unfold SQL.delete_todos. reduce_world.
    rewrite (filter_one i _ r Hpk Hst). eexists. reflexivity.
  - intros Hst. unfold Todo.delete. unfold_js. reduce_world.
    rewrite Hup, Hid. unfold SQL.delete_todos. reduce_world.
    destruct (filter_none i _ Hst) as [-> ->].
    eexists. split; [ reflexivity | ]. reduce_world.
    destruct (db w); reflexivity.
Qed.

Lemma X5_delete_reports_witness :
  (exists w1, Todo.delete todo1 world2 = (Ok true, w1))
  /\ (exists w1, Todo.delete todo1 world0 = (Ok false, w1)
                 /\ db w1 = db world0).
Proof.
  split.
  - apply (proj1 (X5_delete_reports_the_row todo1 world2 1 eq_refl eq_refl)
                 row1).
    + cbn. repeat constructor; cbn; intuition discriminate.
    + reflexivity.
  - apply (proj2 (X5_delete_reports_the_row todo1 world0 1 eq_refl eq_refl)).
    reflexivity.
Defined.

(** X6. [delete] touches nothing but the Todo and its Subtodos: every
    other Todo is stored as before, every Subtodo of another Todo (or of
    none) is kept, and the id sequence does not move. *)
Theorem X6_delete_leaves_the_rest :
  forall t w b w1 i,
    id (Todo.props t) = Some i ->
    Todo.delete t w = (Ok b, w1) ->
    (forall j, j <> i -> stored (db w1) j = stored (db w) j)
    /\ (forall s, In s (subtodos (db w)) ->
                  SubtodoRow.todo_id s <> Some i -> In s (subtodos (db w1)))
    /\ todos_id_seq (db w1) = todos_id_seq (db w).
Proof.
  intros t w b w1 i Hid Hdel.
  destruct (delete_ok t w w1 i b Hid Hdel) as (_ & Htodos & Hsubs & Hseq & _).
  split; [ | split; [ | exact Hseq ] ].
  - intros j Hne. unfold stored. rewrite Htodos.
    apply find_filter_other. exact Hne.
  - intros s Hin Hother. rewrite Hsubs.
    destruct (filter (SQL.has_id i) (todos (db w))); [ exact Hin | ].
    apply filter_In. split; [ exact Hin | ].
    apply negb_true_iff. destruct (SQL.references i s) eqn:E;
      [ | reflexivity ].
    apply references_iff in E. contradiction.
Qed.

Lemma X6_delete_leaves_witness :
  (forall j, j <> 2 ->
             stored (db (snd (Todo.delete (Todo.mk (fromRow row2)) world2))) j
             = stored (db world2) j)
  /\ (forall s, In s (subtodos (db world2)) ->
                SubtodoRow.todo_id s <> Some 2 ->
                In s (subtodos
                        (db (snd (Todo.delete (Todo.mk (fromRow row2))
                                              world2)))))
  /\ todos_id_seq (db (snd (Todo.delete (Todo.mk (fromRow row2)) world2)))
     = todos_id_seq (db world2).
Proof.
  apply (X6_delete_leaves_the_rest (Todo.mk (fromRow row2)) world2 true);
    reflexivity.
Defined.

(* ================================================================== *)
(** ** The handlers that only read *)
(* ================================================================== *)

Lemma getTodoList_reads req : respects eq (TodoController.getTodoList req).
Proof. unfold TodoController.getTodoList. handler_respect. Qed.

Lemma getTodo_reads req : respects eq (TodoController.getTodo req).
Proof. unfold TodoController.getTodo. cbv zeta. handler_respect. Qed.

Lemma getNewTodoForm_reads req :
  respects eq (TodoController.getNewTodoForm req).
Proof. unfold TodoController.getNewTodoForm. handler_respect. Qed.

Lemma getEditTodoForm_reads req :
  respects eq (TodoController.getEditTodoForm req).
Proof. unfold TodoController.getEditTodoForm. cbv zeta. handler_respect. Qed.

(** X7. Reading never writes: [read], [readAll] and the four [GET]
    handlers leave the tables and the id sequence exactly as they were,
    whatever the request, the store and its faults. *)
Theorem X7_reading_leaves_the_store :
  (forall i w, db (snd (Todo.read i w)) = db w)
  /\ (forall u f s o w, db (snd (Todo.readAll u f s o w)) = db w)
  /\ (forall req w, db (snd (TodoController.getTodoList req w)) = db w)
  /\ (forall req w, db (snd (TodoController.getTodo req w)) = db w)
  /\ (forall req w, db (snd (TodoController.getNewTodoForm req w)) = db w)
  /\ (forall req w, db (snd (TodoController.getEditTodoForm req w)) = db w).
Proof.
  split; [ | split; [ | split; [ | split; [ | split ] ] ] ];
    intros; symmetry.
  - apply (read_respects eq).
  - apply (readAll_respects eq).
  - apply getTodoList_reads.
  - apply getTodo_reads.
  - apply getNewTodoForm_reads.
  - apply getEditTodoForm_reads.
Qed.

(* ================================================================== *)
(** ** The handlers that read and then write *)
(* ================================================================== *)

(** A [read] that finds nothing returns [null] or throws, after one use
    of the store. *)
Lemma read_nothing (req : Request) (w : World) :
  read_finds req w = None ->
  Todo.read (getId req) w = (Ok None, used w)
  \/ exists e, Todo.read (getId req) w = (Throw e, used w).
Proof.
  unfold read_finds, Todo.read, used. unfold_js. reduce_world.
  destruct (fault w (stmts w)); [ intros _; right; eexists; reflexivity | ].
  destruct (getId req) as [i|]; unfold SQL.select_by_id; reduce_world.
  - unfold stored. intros ->. left. reflexivity.
  - intros _. right. eexists. reflexivity.
Qed.

(** X8. When the [read] of [updateTodo], [deleteTodo] or [completeTodo]
    finds nothing (the store is down, the id is not a number, or no row
    has it), the handler stops there: it uses the store that once,
    leaves it as it is, and answers 200 with no Todo in the payload. *)
Theorem X8_writers_stop_when_nothing_is_found :
  forall req w h,
    read_finds req w = None ->
    In h writers ->
    exists r w1,
      h req w = (Ok r, w1)
      /\ statusCode r = OK
      /\ payload r = TodoPayload None
      /\ db w1 = db w
      /\ stmts w1 = S (stmts w).
Proof.
  intros req w h Hnone Hin.
  destruct (read_nothing req w Hnone) as [Hr | [e Hr]];
    cbn in Hin; destruct Hin as [<- | [<- | [<- | []]]];
    unfold TodoController.updateTodo, TodoController.deleteTodo,
           TodoController.completeTodo;
    cbv zeta; unfold bind, try_catch; rewrite Hr;
    eexists; eexists; (split; [ reflexivity | ]); repeat split.
Qed.

Lemma X8_writers_stop_witness :
  exists r w1,
    TodoController.deleteTodo (mkRequest (Some 7) (Int 5) emptyBody) world1
    = (Ok r, w1)
    /\ statusCode r = OK
    /\ payload r = TodoPayload None
    /\ db w1 = db world1
    /\ stmts w1 = S (stmts world1).
Proof.
  apply (X8_writers_stop_when_nothing_is_found
           (mkRequest (Some 7) (Int 5) emptyBody) world1
           TodoController.deleteTodo).
  - reflexivity.
  - right. left. reflexivity.
Defined.

(** [read] of a stored Todo on a reachable store. *)
Lemma read_stored (req : Request) (w : World) (i : Z) (r : TodoRow.t) :
  getId req = Int i ->
  stored (db w) i = Some r ->
  fault w (stmts w) = false ->
  Todo.read (getId req) w = (Ok (Some (Todo.mk (fromRow r))), used w).
Proof.
  intros Hg Hst Hup. rewrite Hg, (read_runs i w Hup), Hst. reflexivity.
Qed.

Lemma body_update_assign (b : Body) (now : Date) (r : TodoRow.t) :
  SQL.assign (body_update b) now r = edited_row b now r.
Proof.
  unfold SQL.assign, body_update, edited_row, truthy.
  destruct (body_title b) as [[|c x]|], (body_description b) as [[|c' x']|];
    reflexivity.
Qed.

Lemma body_update_accepted (b : Body) :
  truthy (body_title b) || truthy (body_description b) = true ->
  accepted (body_update b) = true.
Proof.
  unfold accepted, body_update, SQL.no_columns, truthy.
  destruct (body_title b) as [[|c x]|], (body_description b) as [[|c' x']|];
    cbn; congruence.
Qed.

Lemma body_update_allowed (b : Body) (i : Z) (d : Store) :
  SQL.too_long (body_title b) = false ->
  allowed (body_update b) i d = true.
Proof.
  unfold allowed, body_update, SQL.rekey_error. cbn [title id].
  intros H. destruct (truthy (body_title b)); [ rewrite H | ]; reflexivity.
Qed.

Lemma stored_rewritten_same (P : TodoProps) (now : Date) (i : Z)
    (d : Store) :
  id P = None ->
  stored (rewritten P now i d) i = option_map (SQL.assign P now) (stored d i).
Proof.
  intros Hid. unfold stored, rewritten. cbn [todos].
  apply find_map_same_key. intros r. unfold SQL.assign. cbn.
  rewrite Hid. reflexivity.
Qed.

Lemma stored_rewritten_other (P : TodoProps) (now : Date) (i j : Z)
    (d : Store) :
  id P = None -> j <> i ->
  stored (rewritten P now i d) j = stored d j.
Proof.
  intros Hid Hne. unfold stored, rewritten. cbn [todos].
  apply find_map_other_key; [ | congruence ].
  intros r. unfold SQL.assign. cbn. rewrite Hid. reflexivity.
Qed.

(** X9. [updateTodo] on a stored Todo and a reachable store, with a body
    whose title or description is truthy (and whose title has at most
    255 characters): the row gets the truthy fields of the body, an
    empty string counting as absent, and the current time as
    [edited_at]; every other column and every other Todo stay as they
    were; the answer is 200 with the new row and nothing is logged. *)
Theorem X9_updateTodo_writes_truthy_fields :
  forall req w i r,
    getId req = Int i ->
    stored (db w) i = Some r ->
    fault w (stmts w) = false ->
    fault w (S (stmts w)) = false ->
    truthy (body_title (body req)) || truthy (body_description (body req))
    = true ->
    SQL.too_long (body_title (body req)) = false ->
    exists w1,
      TodoController.updateTodo req w
      = (Ok (mkResponse OK "Todo updated successfully!"
               (TodoPayload
                  (Some (fromRow (edited_row (body req) (clock w (reads w))
                                             r))))
               None (Some ("/todos/" ++ show_Z i))), w1)
      /\ stored (db w1) i = Some (edited_row (body req) (clock w (reads w)) r)
      /\ (forall j, j <> i -> stored (db w1) j = stored (db w) j)
      /\ subtodos (db w1) = subtodos (db w)
      /\ log w1 = log w.
Proof.
  intros req w i r Hg Hst Hup Hup' Htruthy Hlen.
  pose proof (read_stored req w i r Hg Hst Hup) as Hread.
  pose proof (stored_has_id _ _ _ Hst) as Hri.
  assert (Hid : id (Todo.props (Todo.mk (fromRow r))) = Some i)
    by (cbn; rewrite Hri; reflexivity).
  pose proof (update_runs (Todo.mk (fromRow r)) (body_update (body req))
                (used w) i r Hid Hst Hup'
                (body_update_accepted _ Htruthy)
                (body_update_allowed _ i _ Hlen)) as Hupd.
  rewrite body_update_assign in Hupd. unfold body_update in Hupd.
  unfold TodoController.updateTodo. cbv zeta. unfold bind, try_catch.
  rewrite Hread, Hupd. rewrite Hg. cbn [show_JsNumber].
  eexists. split; [ reflexivity | ]. cbn [db log used reads clock].
  fold (body_update (body req)).
  split; [ | split; [ | split; reflexivity ] ].
  - rewrite stored_rewritten_same by reflexivity.
    rewrite Hst. cbn [option_map]. rewrite body_update_assign. reflexivity.
  - intros j Hne. apply stored_rewritten_other; [ reflexivity | exact Hne ].
Qed.

Lemma X9_updateTodo_witness :
  exists w1,
    TodoController.updateTodo
      (mkRequest None (Int 1) (mkBody (Some "") (Some "Three litres") None
                                      None)) world1
    = (Ok (mkResponse OK "Todo updated successfully!"
             (TodoPayload
                (Some (fromRow
                         (TodoRow.mk 1 "Buy milk" "Three litres" incomplete None
                                 1700000000000 None (Some 1700000000001)))))
             None (Some "/todos/1")), w1)
    /\ stored (db w1) 1
       = Some (TodoRow.mk 1 "Buy milk" "Three litres" incomplete None
                      1700000000000 None (Some 1700000000001))
    /\ (forall j, j <> 1 -> stored (db w1) j = stored (db world1) j)
    /\ subtodos (db w1) = subtodos (db world1)
    /\ log w1 = log world1.
Proof.
  apply (X9_updateTodo_writes_truthy_fields
           (mkRequest None (Int 1) (mkBody (Some "") (Some "Three litres")
                                           None None))
           world1 1 row1); reflexivity.
Defined.

(** [update] with no column on a reachable store. *)
Lemma update_nothing (t : Todo.t) (w : World) (i : Z) :
  id (Todo.props t) = Some i ->
  fault w (stmts w) = false ->
  Todo.update t (body_update emptyBody) w
  = (Throw SyntaxError,
     mkWorld (db w) (clock w) (S (reads w)) (fault w) (S (stmts w)) (log w)).
Proof.
  intros Hid Hup. unfold Todo.update. unfold_js. reduce_world.
  rewrite Hup, Hid. reflexivity.
Qed.

Lemma body_update_nothing (b : Body) :
  truthy (body_title b) = false ->
  truthy (body_description b) = false ->
  body_update b = body_update emptyBody.
Proof. unfold body_update. intros -> ->. reflexivity. Qed.

(** X10. [updateTodo] on a stored Todo and a reachable store, with a body
    that has neither a truthy title nor a truthy description: the
    [UPDATE] has no column to set and is refused, so nothing is written,
    not even [edited_at]; the error is logged and the answer is still
    200, with the Todo as it was read. *)
Theorem X10_updateTodo_without_fields_writes_nothing :
  forall req w i r,
    getId req = Int i ->
    stored (db w) i = Some r ->
    fault w (stmts w) = false ->
    fault w (S (stmts w)) = false ->
    truthy (body_title (body req)) = false ->
    truthy (body_description (body req)) = false ->
    exists w1,
      TodoController.updateTodo req w
      = (Ok (mkResponse OK "Todo updated successfully!"
               (TodoPayload (Some (fromRow r))) None
               (Some ("/todos/" ++ show_Z i))), w1)
      /\ db w1 = db w
      /\ log w1 = ("Error while updating todo:", SyntaxError) :: log w.
Proof.
  intros req w i r Hg Hst Hup Hup' Ht Hd.
  pose proof (read_stored req w i r Hg Hst Hup) as Hread.
  pose proof (stored_has_id _ _ _ Hst) as Hri.
  assert (Hid : id (Todo.props (Todo.mk (fromRow r))) = Some i)
    by (cbn; rewrite Hri; reflexivity).
  pose proof (update_nothing (Todo.mk (fromRow r)) (used w) i Hid Hup')
    as Hupd.
  rewrite <- (body_update_nothing (body req) Ht Hd) in Hupd.
  unfold body_update in Hupd.
  unfold TodoController.updateTodo. cbv zeta. unfold bind, try_catch.
  rewrite Hread, Hupd. rewrite Hg. cbn [show_JsNumber].
  eexists. split; [ reflexivity | ]. split; reflexivity.
Qed.

Lemma X10_updateTodo_without_fields_witness :
  exists w1,
    TodoController.updateTodo
      (mkRequest None (Int 1) (mkBody (Some "") None None None)) world1
    = (Ok (mkResponse OK "Todo updated successfully!"
             (TodoPayload (Some (fromRow row1))) None (Some "/todos/1")), w1)
    /\ db w1 = db world1
    /\ log w1 = ("Error while updating todo:", SyntaxError) :: log world1.
Proof.
  apply (X10_updateTodo_without_fields_writes_nothing
           (mkRequest None (Int 1) (mkBody (Some "") None None None))
           world1 1 row1); reflexivity.
Defined.

(** X11. [completeTodo] on a stored Todo and a reachable store: the row
    becomes complete, [completed_at] is the time read first and
    [edited_at] the time read next, whatever they were (an earlier
    completion time is overwritten); title, description, due date and
    creation time and every other Todo stay as they were; the answer is
    200 with the new row. *)
Theorem X11_completeTodo_stamps_the_row :
  forall req w i r,
    getId req = Int i ->
    stored (db w) i = Some r ->
    fault w (stmts w) = false ->
    fault w (S (stmts w)) = false ->
    exists w1,
      TodoController.completeTodo req w
      = (Ok (mkResponse OK "Todo marked as complete!"
               (TodoPayload
                  (Some (fromRow (completed_row (clock w (reads w))
                                                (clock w (S (reads w))) r))))
               None (Some ("/todos/" ++ show_Z i))), w1)
      /\ stored (db w1) i
         = Some (completed_row (clock w (reads w)) (clock w (S (reads w))) r)
      /\ (forall j, j <> i -> stored (db w1) j = stored (db w) j)
      /\ log w1 = log w.
Proof.
  intros req w i r Hg Hst Hup Hup'.
  pose proof (read_stored req w i r Hg Hst Hup) as Hread.
  pose proof (stored_has_id _ _ _ Hst) as Hri.
  assert (Hid : id (Todo.props (Todo.mk (fromRow r))) = Some i)
    by (cbn; rewrite Hri; reflexivity).
  pose proof (markComplete_runs (Todo.mk (fromRow r)) (used w) i r Hid Hst
                                Hup') as Hrun.
  cbv zeta in Hrun. cbn [used clock reads db fault stmts log] in Hrun.
  unfold TodoController.completeTodo. cbv zeta. unfold bind, try_catch.
  rewrite Hread, Hrun. rewrite Hg. cbn [show_JsNumber].
  eexists. split; [ reflexivity | ]. cbn [db log].
  split; [ | split; [ | reflexivity ] ].
  - rewrite stored_rewritten_same by reflexivity.
    rewrite Hst. reflexivity.
  - intros j Hne. apply stored_rewritten_other; [ reflexivity | exact Hne ].
Qed.

Lemma X11_completeTodo_witness :
  exists w1,
    TodoController.completeTodo (mkRequest None (Int 2) emptyBody) world2
    = (Ok (mkResponse OK "Todo marked as complete!"
             (TodoPayload
                (Some (fromRow
                         (TodoRow.mk 2 "Pay rent" "Before the 5th" complete None
                                 1700000000000 (Some 1700000000009)
                                 (Some 1700000000010)))))
             None (Some "/todos/2")), w1)
    /\ stored (db w1) 2
       = Some (TodoRow.mk 2 "Pay rent" "Before the 5th" complete None
                      1700000000000 (Some 1700000000009)
                      (Some 1700000000010))
    /\ (forall j, j <> 2 -> stored (db w1) j = stored (db world2) j)
    /\ log w1 = log world2.
Proof.
  apply (X11_completeTodo_stamps_the_row
           (mkRequest None (Int 2) emptyBody) world2 2 row2); reflexivity.
Defined.

Lemma filter_some (i : Z) (l : list TodoRow.t) (r : TodoRow.t) :
  find (SQL.has_id i) l = Some r ->
  exists x rest, filter (SQL.has_id i) l = x :: rest.
Proof.
  induction l as [|y l IH]; intros H; [ discriminate | ].
  cbn [find] in H. cbn [filter]. destruct (SQL.has_id i y).
  - eexists. eexists. reflexivity.
  - apply IH. exact H.
Qed.

(** X12. [deleteTodo] on a stored Todo and a reachable store: the Todo
    and every Subtodo that refers to it are removed, every other Todo is
    stored as before, nothing is logged, and the answer is 200 with the
    Todo as it was before the deletion. *)
Theorem X12_deleteTodo_removes_the_row :
  forall req w i r,
    getId req = Int i ->
    stored (db w) i = Some r ->
    fault w (stmts w) = false ->
    fault w (S (stmts w)) = false ->
    exists w1,
      TodoController.deleteTodo req w
      = (Ok (mkResponse OK "Todo deleted successfully!"
               (TodoPayload (Some (fromRow r))) None (Some "/todos")), w1)
      /\ stored (db w1) i = None
      /\ (forall s, In s (subtodos (db w1)) -> SubtodoRow.todo_id s <> Some i)
      /\ (forall j, j <> i -> stored (db w1) j = stored (db w) j)
      /\ log w1 = log w.
Proof.
  intros req w i r Hg Hst Hup Hup'.
  pose proof (read_stored req w i r Hg Hst Hup) as Hread.
  pose proof (stored_has_id _ _ _ Hst) as Hri.
  destruct (filter_some i _ r Hst) as (x & rest & Hgone).
  unfold TodoController.deleteTodo. cbv zeta. unfold bind, try_catch.
  rewrite Hread. unfold Todo.delete. unfold_js.
  cbn [used db clock reads fault stmts log fst snd Todo.props fromRow id].
  rewrite Hup', Hri. unfold SQL.delete_todos. reduce_world.
  rewrite Hgone. reduce_world.
  eexists. split; [ reflexivity | ]. cbn [db log todos subtodos].
  split; [ | split; [ | split; [ | reflexivity ] ] ].
  - unfold stored. cbn [todos]. apply find_filter_out.
  - intros s Hin Habs. apply filter_In in Hin. destruct Hin as [_ Hneg].
    apply references_iff in Habs. rewrite Habs in Hneg. discriminate.
  - intros j Hne. unfold stored. cbn [todos].
    apply find_filter_other. exact Hne.
Qed.

Lemma X12_deleteTodo_witness :
  exists w1,
    TodoController.deleteTodo (mkRequest None (Int 1) emptyBody) world2
    = (Ok (mkResponse OK "Todo deleted successfully!"
             (TodoPayload (Some (fromRow row1))) None (Some "/todos")), w1)
    /\ stored (db w1) 1 = None
    /\ (forall s, In s (subtodos (db w1)) -> SubtodoRow.todo_id s <> Some 1)
    /\ (forall j, j <> 1 -> stored (db w1) j = stored (db world2) j)
    /\ log w1 = log world2.
Proof.
  apply (X12_deleteTodo_removes_the_row
           (mkRequest None (Int 1) emptyBody) world2 1 row1); reflexivity.
Defined.

(* ================================================================== *)
(** ** The keys of the schema *)
(* ================================================================== *)

#[local] Instance keeps_preorder (I : Store -> Prop) : PreOrder (keeps I).
Proof.
  split.
  - intros d H. exact H.
  - intros d1 d2 d3 H12 H23 H. apply H23, H12, H.
Qed.

Lemma NoDup_snoc {A} (l : list A) (a : A) :
  NoDup l -> ~ In a l -> NoDup (l ++ [a]).
Proof.
  induction l as [|x l IH]; intros Hnd Hnotin; cbn [app].
  - constructor; [ intros [] | constructor ].
  - inversion Hnd as [|? ? Hx Hl]; subst. constructor.
    + intros Hin. apply in_app_or in Hin. destruct Hin as [Hin | [-> | []]].
      * contradiction.
      * apply Hnotin. left. reflexivity.
    + apply IH; [ exact Hl | ]. intros Hin. apply Hnotin. right. exact Hin.
Qed.

Lemma NoDup_map_filter {A} (key : A -> Z) (p : A -> bool) (l : list A) :
  NoDup (map key l) -> NoDup (map key (filter p l)).
Proof.
  induction l as [|x l IH]; intros Hnd; [ constructor | ].
  cbn [map] in Hnd. inversion Hnd as [|? ? Hx Hl]; subst. cbn [filter].
  destruct (p x); [ | apply IH; exact Hl ].
  cbn [map]. constructor; [ | apply IH; exact Hl ].
  intros Hin. apply Hx. apply in_map_iff in Hin.
  destruct Hin as (y & Hy & Hin). apply filter_In in Hin.
  rewrite <- Hy. apply in_map. tauto.
Qed.

(** Renaming the key [i] to a key [j] that is not in use. *)
Lemma NoDup_rename (i j : Z) (l : list Z) :
  NoDup l -> ~ In j l ->
  NoDup (map (fun x => if x =? i then j else x) l).
Proof.
  induction l as [|x l IH]; intros Hnd Hj; [ constructor | ].
  inversion Hnd as [|? ? Hx Hl]; subst. cbn [map]. constructor.
  - intros Hin. apply in_map_iff in Hin. destruct Hin as (y & Hy & Hin).
    assert (j <> x) by (intros ->; apply Hj; left; reflexivity).
    assert (j <> y) by (intros ->; apply Hj; right; exact Hin).
    assert (x <> y) by (intros ->; contradiction).
    destruct (x =? i) eqn:E1, (y =? i) eqn:E2; lia.
  - apply IH; [ exact Hl | ]. intros Hin. apply Hj. right. exact Hin.
Qed.

Lemma existsb_false_not_in (j : Z) (l : list TodoRow.t) :
  existsb (SQL.has_id j) l = false -> ~ In j (map TodoRow.id l).
Proof.
  intros H Hin. apply in_map_iff in Hin. destruct Hin as (r & Hr & Hin).
  assert (existsb (SQL.has_id j) l = true) as Habs.
  { apply existsb_exists. exists r. split; [ exact Hin | ].
    unfold SQL.has_id. lia. }
  congruence.
Qed.

Lemma insert_pk (p : TodoProps) (ts : Date) (d : Store) :
  pk d -> pk (snd (SQL.insert_todos p ts d)).
Proof.
  intros Hpk. unfold SQL.insert_todos.
  destruct (title p); [ | exact Hpk ].
  destruct (description p); [ | exact Hpk ].
  destruct (userId p); [ exact Hpk | ].
  destruct (SQL.too_long _); [ exact Hpk | ].
  match goal with
  | |- context [existsb ?f ?l] => destruct (existsb f l) eqn:E
  end; [ exact Hpk | ].
  unfold pk in *. cbn [snd todos]. rewrite map_app. cbn [map].
  apply NoDup_snoc; [ exact Hpk | ].
  apply existsb_false_not_in. exact E.
Qed.

Lemma update_pk (P : TodoProps) (now : Date) (i : option Z) (ts : Date)
    (d : Store) :
  pk d -> pk (snd (SQL.update_todos P now i ts d)).
Proof.
  intros Hpk. unfold SQL.update_todos.
  destruct i as [i|]; [ | exact Hpk ].
  destruct (SQL.no_columns P); [ exact Hpk | ].
  destruct (userId P); [ exact Hpk | ].
  destruct (editedAt P); [ exact Hpk | ].
  destruct (existsb _ _); [ | exact Hpk ].
  destruct (SQL.too_long _); [ exact Hpk | ].
  destruct (SQL.rekey_error i P d) eqn:Hk; [ exact Hpk | ].
  unfold pk in *. cbn [snd todos]. rewrite map_map.
  unfold SQL.rekey_error in Hk. unfold SQL.assign.
  destruct (id P) as [j|]; cbn [SQL.or_else TodoRow.id].
  - destruct (j =? i) eqn:Eji.
    + erewrite map_ext; [ rewrite <- map_map with (g := fun x => x);
                          rewrite map_id; exact Hpk | ].
      intros r. cbn. unfold SQL.has_id.
      destruct (TodoRow.id r =? i) eqn:E; cbn; lia.
    + destruct (existsb (SQL.has_id j) (todos d)) eqn:Ej; [ discriminate | ].
      erewrite map_ext;
        [ rewrite <- map_map
            with (f := TodoRow.id) (g := fun x => if x =? i then j else x);
          apply NoDup_rename;
          [ exact Hpk | apply existsb_false_not_in; exact Ej ] | ].
      intros r. cbn. unfold SQL.has_id.
      destruct (TodoRow.id r =? i); reflexivity.
  - erewrite map_ext; [ exact Hpk | ].
    intros r. cbn. destruct (SQL.has_id i r); reflexivity.
Qed.

Lemma delete_pk (i : option Z) (ts : Date) (d : Store) :
  pk d -> pk (snd (SQL.delete_todos i ts d)).
Proof.
  intros Hpk. unfold SQL.delete_todos. destruct i as [i|]; [ | exact Hpk ].
  unfold pk in *. cbn [snd todos]. apply NoDup_map_filter. exact Hpk.
Qed.

Lemma has_row (j : Z) (l : list TodoRow.t) :
  existsb (SQL.has_id j) l = true <-> exists r, In r l /\ TodoRow.id r = j.
Proof.
  rewrite existsb_exists. unfold SQL.has_id.
  split; intros (r & Hin & H); exists r; (split; [ exact Hin | lia ]).
Qed.

Lemma insert_fk (p : TodoProps) (ts : Date) (d : Store) :
  fk d -> fk (snd (SQL.insert_todos p ts d)).
Proof.
  intros Hfk. unfold SQL.insert_todos.
  destruct (title p) as [ti|]; [ | exact Hfk ].
  destruct (description p) as [de|]; [ | exact Hfk ].
  destruct (userId p) as [u|]; [ exact Hfk | ].
  destruct (SQL.too_long _); [ exact Hfk | ].
  destruct (existsb _ _); [ exact Hfk | ].
  intros s j Hs Hj. cbn [snd todos subtodos] in *.
  rewrite existsb_app. rewrite (Hfk s j Hs Hj). reflexivity.
Qed.

Lemma update_fk (P : TodoProps) (now : Date) (i : option Z) (ts : Date)
    (d : Store) :
  fk d -> fk (snd (SQL.update_todos P now i ts d)).
Proof.
  intros Hfk. unfold SQL.update_todos.
  destruct i as [i|]; [ | exact Hfk ].
  destruct (SQL.no_columns P); [ exact Hfk | ].
  destruct (userId P); [ exact Hfk | ].
  destruct (editedAt P); [ exact Hfk | ].
  destruct (existsb _ _); [ | exact Hfk ].
  destruct (SQL.too_long _); [ exact Hfk | ].
  destruct (SQL.rekey_error i P d) eqn:Hk; [ exact Hfk | ].
  intros s k Hs Hsk. cbn [snd todos subtodos] in *.
  pose proof (Hfk s k Hs Hsk) as Hrow. apply has_row in Hrow.
  destruct Hrow as (r & Hin & Hrk). apply has_row.
  exists (if SQL.has_id i r then SQL.assign P now r else r).
  split; [ apply in_map_iff; exists r; split; [ reflexivity | exact Hin ] | ].
  destruct (SQL.has_id i r) eqn:Eir; [ | exact Hrk ].
  unfold SQL.has_id in Eir. unfold SQL.assign. cbn [TodoRow.id].
  unfold SQL.rekey_error in Hk.
  destruct (id P) as [j|]; cbn [SQL.or_else]; [ | exact Hrk ].
  destruct (j =? i) eqn:Eji; [ lia | ].
  destruct (existsb (SQL.has_id j) (todos d)); [ discriminate | ].
  destruct (existsb (SQL.references i) (subtodos d)) eqn:Eref;
    [ discriminate | ].
  exfalso. assert (existsb (SQL.references i) (subtodos d) = true) as Habs.
  { apply existsb_exists. exists s. split; [ exact Hs | ].
    apply references_iff. rewrite Hsk. f_equal. lia. }
  congruence.
Qed.

Lemma filter_nil_keeps (i : Z) (l : list TodoRow.t) :
  filter (SQL.has_id i) l = [] ->
  filter (fun r => negb (SQL.has_id i r)) l = l.
Proof.
  induction l as [|x l IH]; [ reflexivity | ].
  cbn [filter]. destruct (SQL.has_id i x); [ discriminate | ].
  intros H. cbn [negb]. rewrite (IH H). reflexivity.
Qed.

Lemma delete_fk (i : option Z) (ts : Date) (d : Store) :
  fk d -> fk (snd (SQL.delete_todos i ts d)).
Proof.
  intros Hfk. unfold SQL.delete_todos. destruct i as [i|]; [ | exact Hfk ].
  intros s k Hs Hsk. cbn [snd todos subtodos] in *.
  destruct (filter (SQL.has_id i) (todos d)) as [|x gone] eqn:Egone.
  - rewrite (filter_nil_keeps i _ Egone). exact (Hfk s k Hs Hsk).
  - apply filter_In in Hs. destruct Hs as [Hs Hneg].
    apply negb_true_iff in Hneg.
    pose proof (Hfk s k Hs Hsk) as Hrow. apply has_row in Hrow.
    destruct Hrow as (r & Hin & Hrk). apply has_row. exists r.
    split; [ | exact Hrk ]. apply filter_In. split; [ exact Hin | ].
    apply negb_true_iff. unfold SQL.has_id.
    destruct (TodoRow.id r =? i) eqn:E; [ exfalso | reflexivity ].
    assert (SQL.references i s = true) as Habs
      by (apply references_iff; rewrite Hsk; f_equal; lia).
    congruence.
Qed.

(** An invariant of the store that the three writing statements keep is
    kept by the entity module, by every handler and along every run. *)
Section Invariant.

Variable I : Store -> Prop.

Hypothesis I_insert :
  forall p ts d, I d -> I (snd (SQL.insert_todos p ts d)).

Hypothesis I_update :
  forall P now i ts d, I d -> I (snd (SQL.update_todos P now i ts d)).

Hypothesis I_delete :
  forall i ts d, I d -> I (snd (SQL.delete_todos i ts d)).

Lemma create_keeps (p : TodoProps) : respects (keeps I) (Todo.create p).
Proof. unfold Todo.create. respect; intros ts d; exact (I_insert _ ts d). Qed.

Lemma update_keeps (t : Todo.t) (P : TodoProps) :
  respects (keeps I) (Todo.update t P).
Proof.
  unfold Todo.update. respect. intros ts d. exact (I_update _ _ _ ts d).
Qed.

Lemma delete_keeps (t : Todo.t) : respects (keeps I) (Todo.delete t).
Proof. unfold Todo.delete. respect. intros ts d. exact (I_delete _ ts d). Qed.

Lemma markComplete_keeps (t : Todo.t) :
  respects (keeps I) (Todo.markComplete t).
Proof. unfold Todo.markComplete. respect. apply update_keeps. Qed.

Ltac handler_keeps :=
  repeat first
    [ respect_step
    | apply read_respects; preorder
    | apply readAll_respects; preorder
    | apply create_keeps
    | apply update_keeps
    | apply delete_keeps
    | apply markComplete_keeps ].

Lemma handlers_keep (h : TodoController.Handler) (req : Request) :
  registered h -> respects (keeps I) (h req).
Proof.
  intros (m & p & Hin). cbn in Hin.
  repeat (destruct Hin as [Heq | Hin]; [ inversion Heq; subst; clear Heq | ]);
    try contradiction; unfold_handlers; cbv zeta; handler_keeps.
Qed.

Lemma run_keeps (ops : list Op) (w : World) :
  Forall (fun o => registered (fst o)) ops ->
  I (db w) -> I (db (run ops w)).
Proof.
  revert w. induction ops as [|[h req] ops IH]; intros w Hreg Hw.
  - exact Hw.
  - inversion Hreg as [|? ? Hh Hrest]; subst. cbn [run].
    apply IH; [ exact Hrest | ].
    unfold step. cbn [fst snd]. apply (handlers_keep h req Hh w). exact Hw.
Qed.

End Invariant.

(** X13. The primary key of [todos] is an invariant of the program: if
    no two rows share an id, then none do after [create], [update],
    [delete] or [markComplete], whatever their arguments and outcome, and
    none do after any sequence of operations of the controller. *)
Theorem X13_primary_key_is_kept :
  (forall p w, pk (db w) -> pk (db (snd (Todo.create p w))))
  /\ (forall t P w, pk (db w) -> pk (db (snd (Todo.update t P w))))
  /\ (forall t w, pk (db w) -> pk (db (snd (Todo.delete t w))))
  /\ (forall t w, pk (db w) -> pk (db (snd (Todo.markComplete t w))))
  /\ (forall ops w,
        Forall (fun o => registered (fst o)) ops ->
        pk (db w) -> pk (db (run ops w))).
Proof.
  split; [ | split; [ | split; [ | split ] ] ].
  - intros p w. apply (create_keeps pk insert_pk).
  - intros t P w. apply (update_keeps pk update_pk).
  - intros t w. apply (delete_keeps pk delete_pk).
  - intros t w. apply (markComplete_keeps pk update_pk).
  - apply (run_keeps pk insert_pk update_pk delete_pk).
Qed.

(** X14. The foreign key of [subtodos] is an invariant of the program:
    if every Subtodo that names a Todo names a stored one, then so it is
    after [create], [update], [delete] or [markComplete], whatever their
    arguments and outcome, and after any sequence of operations of the
    controller. *)
Theorem X14_foreign_key_is_kept :
  (forall p w, fk (db w) -> fk (db (snd (Todo.create p w))))
  /\ (forall t P w, fk (db w) -> fk (db (snd (Todo.update t P w))))
  /\ (forall t w, fk (db w) -> fk (db (snd (Todo.delete t w))))
  /\ (forall t w, fk (db w) -> fk (db (snd (Todo.markComplete t w))))
  /\ (forall ops w,
        Forall (fun o => registered (fst o)) ops ->
        fk (db w) -> fk (db (run ops w))).
Proof.
  split; [ | split; [ | split; [ | split ] ] ].
  - intros p w. apply (create_keeps fk insert_fk).
  - intros t P w. apply (update_keeps fk update_fk).
  - intros t w. apply (delete_keeps fk delete_fk).
  - intros t w. apply (markComplete_keeps fk update_fk).
  - apply (run_keeps fk insert_fk update_fk delete_fk).
Qed.

Lemma store2_pk : pk store2.
Proof.
  unfold pk. cbn. repeat constructor; cbn; intuition discriminate.
Qed.

Lemma store2_fk : fk store2.
Proof.
  intros s j [<- | []] Hj. cbn in Hj. inversion Hj; subst. reflexivity.
Qed.

Lemma sample_registered :
  Forall (fun o => registered (fst o))
         [sample_create; sample_complete; sample_update].
Proof.
  repeat constructor; eexists; eexists; cbn; tauto.
Qed.

Lemma X13_primary_key_witness :
  pk (db (snd (Todo.create props1 world2)))
  /\ pk (db (run [sample_create; sample_complete; sample_update] world2)).
Proof.
  split.
  - apply (proj1 X13_primary_key_is_kept props1 world2). exact store2_pk.
  - apply (proj2 (proj2 (proj2 (proj2 X13_primary_key_is_kept)))).
    + exact sample_registered.
    + exact store2_pk.
Defined.

Lemma X14_foreign_key_witness :
  fk (db (snd (Todo.delete todo1 world2)))
  /\ fk (db (run [sample_create; sample_complete; sample_update] world2)).
Proof.
  split.
  - apply (proj1 (proj2 (proj2 X14_foreign_key_is_kept)) todo1 world2).
    exact store2_fk.
  - apply (proj2 (proj2 (proj2 (proj2 X14_foreign_key_is_kept)))).
    + exact sample_registered.
    + exact store2_fk.
Defined.

(* ================================================================== *)
(** ** How the operations compose *)
(* ================================================================== *)

(** X15. What [createTodo] answered is what [getTodo] shows next: when
    the answer of [createTodo] carries a Todo, the Todo has an id, the
    redirect leads to it, and [getTodo] of that id on the store as
    [createTodo] left it answers with the same Todo, its title, and
    [isComplete] false. *)
Theorem X15_createTodo_then_getTodo :
  forall req w r w1 p s b,
    TodoController.createTodo req w = (Ok r, w1) ->
    payload r = TodoPayload (Some p) ->
    fault w1 (stmts w1) = false ->
    exists i,
      id p = Some i
      /\ redirect r = Some ("/todos/" ++ show_Z i)
      /\ fst (TodoController.getTodo (mkRequest s (Int i) b) w1)
         = Ok (mkResponse OK "Todo retrieved"
                 (ShowPayload (Some p) (title p) false)
                 (Some "ShowView") None).
Proof.
  intros req w r w1 p s b.
  unfold TodoController.createTodo. unfold bind at 1. unfold createUTCDate.
  cbv zeta. unfold bind at 2. unfold try_catch, bind.
  match goal with
  | |- context [Todo.create ?P ?W] =>
      destruct (Todo.create P W) as [[t|e] w2] eqn:Hc
  end; unfold console_error, ret; intros H Hp Hup;
    inversion H; subst; clear H; cbn in Hp; [ | discriminate ].
  inversion Hp; subst; clear Hp.
  destruct (create_ok _ _ _ _ Hc)
    as (row & -> & Htodos & _ & Hfresh & _ & _ & _ & _ & _ & Hstatus & _).
  cbn [status] in Hstatus.
  exists (TodoRow.id row). split; [ reflexivity | ]. split; [ reflexivity | ].
  assert (Hst : stored (db w1) (TodoRow.id row) = Some row).
  { unfold stored in *. rewrite Htodos, find_snoc, Hfresh.
    unfold SQL.has_id. rewrite Z.eqb_refl. reflexivity. }
  unfold TodoController.getTodo. cbv zeta. unfold bind, try_catch.
  cbn [getId]. rewrite (read_runs _ _ Hup), Hst.
  cbn [option_map ret fst Todo.props props_of]. unfold is_complete.
  cbn [fromRow status title]. rewrite Hstatus. reflexivity.
Qed.

Lemma X15_createTodo_then_getTodo_witness :
  exists i,
    id (fromRow row1) = Some i
    /\ redirect (mkResponse Created "Todo created successfully!"
                   (TodoPayload (Some (fromRow row1))) None
                   (Some "/todos/1"))
       = Some ("/todos/" ++ show_Z i)
    /\ fst (TodoController.getTodo (mkRequest None (Int i) emptyBody)
              (snd (TodoController.createTodo sample_request world0)))
       = Ok (mkResponse OK "Todo retrieved"
               (ShowPayload (Some (fromRow row1)) (title (fromRow row1))
                            false)
               (Some "ShowView") None).
Proof.
  apply (X15_createTodo_then_getTodo sample_request world0
           (mkResponse Created "Todo created successfully!"
              (TodoPayload (Some (fromRow row1))) None (Some "/todos/1"))
           (snd (TodoController.createTodo sample_request world0))
           (fromRow row1) None emptyBody); reflexivity.
Defined.

(** X16. Ids are not reused: on a store whose id sequence is ahead of
    its rows, an id that the sequence has passed and that no row has
    (the id of a deleted Todo) is never given to a Todo again by any
    sequence of operations of the controller, and the sequence never
    goes back. *)
Theorem X16_ids_are_not_reused :
  forall ops w i,
    keyed (db w) ->
    Forall (fun o => registered (fst o)) ops ->
    i <= todos_id_seq (db w) ->
    stored (db w) i = None ->
    stored (db (run ops w)) i = None
    /\ todos_id_seq (db w) <= todos_id_seq (db (run ops w)).
Proof.
  intros ops w i Hk Hreg Hle Hnone.
  destruct (run_evolves ops w Hreg Hk) as (_ & Hseq & _ & Hc).
  split; [ apply Hc; assumption | exact Hseq ].
Qed.

Lemma X16_ids_are_not_reused_witness :
  stored (db (run [sample_create; sample_update] world3)) 1 = None
  /\ todos_id_seq (db world3)
     <= todos_id_seq (db (run [sample_create; sample_update] world3)).
Proof.
  apply (X16_ids_are_not_reused [sample_create; sample_update] world3 1).
  - intros r [].
  - repeat constructor; eexists; eexists; cbn; tauto.
  - cbn. lia.
  - reflexivity.
Defined.

(** X17. A Todo object without a row writes nothing: when the object
    has no id, or no row has its id, [update], [markComplete] and
    [delete] leave the store exactly as it is, whatever the update. *)
Theorem X17_without_a_row_nothing_is_written :
  forall t P w,
    (forall i, id (Todo.props t) = Some i -> stored (db w) i = None) ->
    db (snd (Todo.update t P w)) = db w
    /\ db (snd (Todo.markComplete t w)) = db w
    /\ db (snd (Todo.delete t w)) = db w.
Proof.
  intros t P w Hnone.
  assert (Hupd : forall Q w', db w' = db w ->
                              db (snd (Todo.update t Q w')) = db w).
  { intros Q w' Hw'. unfold Todo.update. unfold_js. reduce_world.
    destruct (fault w' (stmts w')); [ exact Hw' | ].
    unfold SQL.update_todos. reduce_world.
    destruct (id (Todo.props t)) as [i|] eqn:Hid; [ | exact Hw' ].
    destruct (SQL.no_columns Q); [ exact Hw' | ].
    destruct (userId Q); [ exact Hw' | ].
    destruct (editedAt Q); [ exact Hw' | ].
    rewrite Hw'. rewrite (stored_none_existsb _ _ (Hnone i eq_refl)).
    reflexivity. }
  split; [ apply Hupd; reflexivity | split ].
  - unfold Todo.markComplete, bind, createUTCDate. apply Hupd. reflexivity.
  - unfold Todo.delete. unfold_js. reduce_world.
    destruct (fault w (stmts w)); [ reflexivity | ].
    unfold SQL.delete_todos. reduce_world.
    destruct (id (Todo.props t)) as [i|] eqn:Hid; [ | reflexivity ].
    reduce_world.
    destruct (filter_none i _ (Hnone i eq_refl)) as [-> ->].
    destruct (db w); reflexivity.
Qed.

Lemma X17_without_a_row_witness :
  db (snd (Todo.update todo1 (titleOnly "Buy oat milk") world3)) = db world3
  /\ db (snd (Todo.markComplete todo1 world3)) = db world3
  /\ db (snd (Todo.delete todo1 world3)) = db world3.
Proof.
  apply (X17_without_a_row_nothing_is_written todo1
           (titleOnly "Buy oat milk") world3).
  intros i Hi. reflexivity.
Defined.
